(** * gen_random.c: selection of random constants for the random(4) driver

    A shallow embedding of [scripts/gen_random.c] and the properties the
    specification states about it.

    Conventions of the embedding:
    - a [u32] is a [Z] in [0, 2^32); arithmetic on it is wrapped with
      [wrap32]; an [int] is a [Z] in [INT_MIN, INT_MAX];
    - the buffer [data] is a list of bytes, a word is loaded from it in the
      byte order of the build host, taken little-endian;
    - plain [char] is signed, as on the usual build hosts, so that [*p] and
      the character constants of [accept] are values in [-128, 127];
    - [/dev/urandom], [calloc] and the two output streams form the
      environment and the state of a small monad; [exit] is an outcome;
    - unbounded loops take a fuel argument and yield [Timeout] when it is
      used up: a run diverges when it yields [Timeout] for every fuel. *)

From Stdlib Require Import ZArith List String Ascii Lia Bool Arith.
From Stdlib Require Import Strings.Byte DecimalString.
Import ListNotations.
Local Open Scope string_scope.
Local Open Scope Z_scope.

(** ** Configuration constants (lines 72-77, 151, 224-225) *)

Definition INPUT_POOL_SHIFT : Z := 12.
Definition INPUT_POOL_WORDS : Z := Z.shiftl 1 (INPUT_POOL_SHIFT - 5).
Definition OUTPUT_POOL_SHIFT : Z := 10.
Definition OUTPUT_POOL_WORDS : Z := Z.shiftl 1 (OUTPUT_POOL_SHIFT - 5).
Definition TOTAL_POOL_WORDS : Z := INPUT_POOL_WORDS + 2 * OUTPUT_POOL_WORDS.

Definition ARRAY_ROWS : Z := 8.
Definition ARRAY_WORDS : Z := 4 * ARRAY_ROWS.

Definition PER_LINE : Z := 8.

Definition MIN : Z := 8.
Definition MAX : Z := 32 - MIN.

(** ** Machine integers *)

Definition wrap32 (x : Z) : Z := x mod 2 ^ 32.

Definition is_u32 (x : Z) : Prop := 0 <= x < 2 ^ 32.

Definition INT_MAX : Z := 2147483647.
Definition INT_MIN : Z := -2147483648.

Definition int_ok (x : Z) : bool := (INT_MIN <=? x) && (x <=? INT_MAX).

(** ** hamming (lines 254-260)

    [for (h = 0 ; x ; h++) x &= (x-1) ; return(h) ;]
    One unit of fuel is used by each evaluation of the loop test. *)

Fixpoint hamming_loop (fuel : nat) (x h : Z) : option Z :=
  match fuel with
  | O => None
  | S fuel' =>
      if x =? 0 then Some h
      else hamming_loop fuel' (wrap32 (Z.land x (wrap32 (x - 1)))) (h + 1)
  end.

(** A [u32] has at most 32 bits set, so the test is evaluated at most 33
    times; [hamming_returns] shows that this fuel is never used up. *)
Definition hamming_fuel : nat := 33.

Definition hamming (x : Z) : option Z := hamming_loop hamming_fuel x 0.

(** ** accept (lines 227-248) *)

(** The value of a byte read through a [char *]. *)
Definition char_of_byte (b : Z) : Z := if b <? 128 then b else b - 256.

(** The [i]-th byte of the object representation of [u]. *)
Definition byte_of_u32 (u : Z) (i : Z) : Z := Z.land (Z.shiftr u (8 * i)) 255.

(** [p[i]] for [p = (char * ) &u]. *)
Definition char_at (u : Z) (i : Z) : Z := char_of_byte (byte_of_u32 u i).

(** The character constants ['\0'] and ['\255']: an octal escape, the [char]
    of value 0o255 = 173 converted to [int]. *)
Definition chr_0 : Z := char_of_byte 0.
Definition chr_255 : Z := char_of_byte (2 * 64 + 5 * 8 + 5).

(** [for( i = 0, p = (char * ) &u ; i < 4 ; i++, p++ ) switch( *p ) ...]:
    the loop over the four indices, left at the first matching case. *)
Fixpoint accept_bytes (u : Z) (idx : list Z) : Z :=
  match idx with
  | [] => 1
  | i :: idx' =>
      let c := char_at u i in
      if (c =? chr_0) || (c =? chr_255) then 0
      else accept_bytes u idx'
  end.

Definition accept (u : Z) : option Z :=
  match hamming u with
  | None => None
  | Some h =>
      if (h <? MIN) || (h >? MAX) then Some 0
      else Some (accept_bytes u [0; 1; 2; 3])
  end.

(** ** The environment and the state of a run *)

(** What the run meets: whether [/dev/urandom] can be opened, whether the
    k-th call of [calloc] finds memory, and what the k-th call of [read]
    finds on the device: [None] for an error, [Some bs] for the bytes that
    are available at that moment. *)
Record env : Type := mkEnv {
  dev_open : bool;
  calloc_ok : nat -> bool;
  dev_read : nat -> option (list byte)
}.

(** The global [urandom], the number of calls made so far, and the text
    written to the two streams. *)
Record state : Type := mkState {
  urandom : Z;
  n_calloc : nat;
  n_read : nat;
  stdout : string;
  stderr : string
}.

Definition initial_state : state := mkState 0 0 0 "" "".

Inductive outcome (A : Type) : Type :=
| Ret (a : A)           (* the call returns *)
| Exit (status : Z)     (* exit(status) was called *)
| Undefined             (* signed overflow *)
| Timeout.              (* the fuel is used up *)
Arguments Ret {A} a.
Arguments Exit {A} status.
Arguments Undefined {A}.
Arguments Timeout {A}.

Definition M (A : Type) : Type := state -> outcome A * state.

Definition ret {A : Type} (a : A) : M A := fun st => (Ret a, st).

Definition bind {A B : Type} (m : M A) (k : A -> M B) : M B :=
  fun st =>
    match m st with
    | (Ret a, st') => k a st'
    | (Exit c, st') => (Exit c, st')
    | (Undefined, st') => (Undefined, st')
    | (Timeout, st') => (Timeout, st')
    end.

Declare Scope monad_scope.
Delimit Scope monad_scope with monad.
Notation "x <- m ;; k" := (bind m (fun x => k))
  (at level 61, m at next level, right associativity) : monad_scope.
Notation "' pat <- m ;; k" := (bind m (fun x => match x with pat => k end))
  (at level 61, pat pattern, m at next level, right associativity) : monad_scope.
Notation "m ;; k" := (bind m (fun _ => k))
  (at level 61, right associativity) : monad_scope.
Local Open Scope monad_scope.

Definition exit {A : Type} (status : Z) : M A := fun st => (Exit status, st).
Definition undefined {A : Type} : M A := fun st => (Undefined, st).
Definition timeout {A : Type} : M A := fun st => (Timeout, st).

(** ** Text *)

Definition nl : string := String (ascii_of_nat 10) EmptyString.

Definition printf (s : string) : M unit :=
  fun st => (Ret tt, mkState (urandom st) (n_calloc st) (n_read st)
                             (stdout st ++ s) (stderr st)).

Definition fprintf_stderr (s : string) : M unit :=
  fun st => (Ret tt, mkState (urandom st) (n_calloc st) (n_read st)
                             (stdout st) (stderr st ++ s)).

(** [%d] *)
Definition fmt_d (n : Z) : string := NilZero.string_of_int (Z.to_int n).

Definition hex_digit (d : Z) : ascii :=
  nth (Z.to_nat d)
      ["0"; "1"; "2"; "3"; "4"; "5"; "6"; "7";
       "8"; "9"; "a"; "b"; "c"; "d"; "e"; "f"]%char "0"%char.

Definition nibble (w : Z) (k : Z) : Z := Z.land (Z.shiftr w (4 * k)) 15.

(** [%08x] of a [u32]: its eight hexadecimal digits, the highest first. *)
Definition fmt_08x (w : Z) : string :=
  string_of_list_ascii
    (map (fun k => hex_digit (nibble w k)) [7; 6; 5; 4; 3; 2; 1; 0]).

(** ** Memory *)

Definition Z_of_byte (b : byte) : Z := Z.of_N (Byte.to_N b).

(** The [u32] stored at byte offset [off] of [data]. *)
Definition load32 (data : list byte) (off : nat) : Z :=
  Z_of_byte (nth off data x00)
  + 2 ^ 8 * Z_of_byte (nth (off + 1) data x00)
  + 2 ^ 16 * Z_of_byte (nth (off + 2) data x00)
  + 2 ^ 24 * Z_of_byte (nth (off + 3) data x00).

(** [data[i]] and [*p] for [p = data + i]. *)
Definition word_at (data : list byte) (i : Z) : Z :=
  load32 data (Z.to_nat (4 * i)).

(** The bytes [bs] stored from byte offset [off] of [data] on. *)
Fixpoint write (data : list byte) (off : nat) (bs : list byte) : list byte :=
  match data with
  | [] => []
  | d :: data' =>
      match off with
      | S off' => d :: write data' off' bs
      | O =>
          match bs with
          | [] => data
          | b :: bs' => b :: write data' O bs'
          end
      end
  end.

(** The indices of [for( i = 0 ; i < n ; i ++ )]. *)
Definition range (n : Z) : list Z := map Z.of_nat (seq 0 (Z.to_nat n)).

Definition size_t_of_int (n : Z) : Z := n mod 2 ^ 64.

(** ** The program *)

Definition msg_open : string :=
  "gen_random_init: no /dev/urandom, cannot continue" ++ nl.
Definition msg_calloc : string :=
  "gen_random_init: calloc() failed, cannot continue" ++ nl.
Definition msg_read : string :=
  "gen_random_int: read() failed, cannot contiue" ++ nl.

Section Program.

Variable e : env.

(** [open("/dev/urandom", O_RDONLY)]: a descriptor, or -1. *)
Definition sys_open : M Z :=
  fun st => (Ret (if dev_open e then 3 else -1), st).

Definition set_urandom (fd : Z) : M unit :=
  fun st => (Ret tt, mkState fd (n_calloc st) (n_read st)
                             (stdout st) (stderr st)).

(** [calloc(nmemb, size)]: zeroed memory, or [None] for [NULL]; no
    memory when [nmemb * size] is not a [size_t], taken 64 bits wide. *)
Definition sys_calloc (nmemb size : Z) : M (option (list byte)) :=
  fun st =>
    let st' := mkState (urandom st) (S (n_calloc st)) (n_read st)
                       (stdout st) (stderr st) in
    if (nmemb * size <? 2 ^ 64) && calloc_ok e (n_calloc st)
    then (Ret (Some (repeat x00 (Z.to_nat (nmemb * size)))), st')
    else (Ret None, st').

(** [read(urandom, buf, count)]: the value returned and the bytes stored
    at [buf]; never more than [count] bytes, none on an error. *)
Definition sys_read (count : Z) : M (Z * list byte) :=
  fun st =>
    let st' := mkState (urandom st) (n_calloc st) (S (n_read st))
                       (stdout st) (stderr st) in
    match dev_read e (n_read st) with
    | None => (Ret (-1, []), st')
    | Some bs =>
        let got := firstn (Z.to_nat count) bs in
        (Ret (Z.of_nat (List.length got), got), st')
    end.

(** [while( !accept( *p) ) x = read( urandom, (char * ) p, 4) ;]
    for [p = data + i] (line 182). *)
Fixpoint retry_loop (fuel : nat) (i x : Z) (data : list byte)
  : M (Z * list byte) :=
  match fuel with
  | O => timeout
  | S fuel' =>
      match accept (word_at data i) with
      | None => timeout
      | Some a =>
          if a =? 0 then
            '(x', got) <- sys_read 4 ;;
            retry_loop fuel' i x' (write data (Z.to_nat (4 * i)) got)
          else ret (x, data)
      end
  end.

(** [for( i = 0, x = 1, p = data ; x && (i < nwords) ; i++, p++ )]
    (line 181), entered with the values of [i] and [x]. *)
Fixpoint replace_loop (fuel : nat) (nwords i x : Z) (data : list byte)
  : M (list byte) :=
  match fuel with
  | O => timeout
  | S fuel' =>
      if negb (x =? 0) && (i <? nwords) then
        '(x', data') <- retry_loop fuel' i x data ;;
        replace_loop fuel' nwords (i + 1) x' data'
      else ret data
  end.

(** The body of the output loop (lines 189-194). *)
Definition print_word (nwords : Z) (data : list byte) (i : Z) : M unit :=
  printf ("0x" ++ fmt_08x (word_at data i)) ;;
  if i =? nwords - 1 then printf (" } ;" ++ nl)
  else if Z.rem i PER_LINE =? PER_LINE - 1 then printf ("," ++ nl)
  else printf ", ".

(** [for( i = 0 ; i < nwords ; i ++ )] (line 188), over its indices. *)
Fixpoint print_loop (nwords : Z) (data : list byte) (idx : list Z)
  : M unit :=
  match idx with
  | [] => ret tt
  | i :: idx' => print_word nwords data i ;; print_loop nwords data idx'
  end.

(** do_block (lines 153-198) *)
Definition do_block (fuel : nat) (nwords : Z) (name : string) : M unit :=
  let nbytes := 4 * nwords in
  if negb (int_ok nbytes) then undefined else
  r <- sys_calloc (size_t_of_int nwords) 4 ;;
  match r with
  | None => fprintf_stderr msg_calloc ;; exit 1
  | Some data =>
      '(x, got) <- sys_read nbytes ;;
      let data := write data 0 got in
      if negb (x =? nbytes) then fprintf_stderr msg_read ;; exit 1
      else
        data <- replace_loop fuel nwords 0 1 data ;;
        printf ("static u32 " ++ name ++ "[] = {" ++ nl) ;;
        print_loop nwords data (range nwords) ;;
        printf nl
        (* free( data ) : nothing of the model depends on it *)
  end.

(** usage (lines 200-204) *)
Definition usage : M unit :=
  fprintf_stderr ("usage: gen_random_init" ++ nl) ;; exit 1.

(** Whether the generator is compiled with [CONFIG_RANDOM_GCM]. *)
Variable CONFIG_RANDOM_GCM : bool.

(** The preamble (lines 94-101). *)
Definition print_preamble : M unit :=
  printf ("/* File generated by gen_random_init.c */" ++ nl ++ nl) ;;
  printf ("#define INPUT_POOL_WORDS " ++ fmt_d INPUT_POOL_WORDS ++ nl) ;;
  printf ("#define OUTPUT_POOL_WORDS " ++ fmt_d OUTPUT_POOL_WORDS ++ nl) ;;
  printf ("#define INPUT_POOL_SHIFT " ++ fmt_d INPUT_POOL_SHIFT ++ nl ++ nl).

(** The blocks and the end of main (lines 107-143). *)
Definition main_blocks (fuel : nat) : M unit :=
  do_block fuel TOTAL_POOL_WORDS "pools" ;;
  (if CONFIG_RANDOM_GCM then
     printf ("#define ARRAY_WORDS " ++ fmt_d ARRAY_WORDS ++ nl ++ nl) ;;
     do_block fuel (ARRAY_WORDS + 8) "constants" ;;
     printf ("static u32 *counter = constants + ARRAY_WORDS ;" ++ nl)
   else ret tt) ;;
  exit 0.

(** main (lines 88-144) *)
Definition main (fuel : nat) : M unit :=
  fd <- sys_open ;;
  set_urandom fd ;;
  if fd =? -1 then fprintf_stderr msg_open ;; exit 1
  else print_preamble ;; main_blocks fuel.

End Program.

(** ** The words of the specification *)

(** The population count of a 32-bit word: the number of its bits set. *)
Definition popcount (x : Z) : Z :=
  Z.of_nat (List.length (filter (Z.testbit x) (range 32))).

(** The same count, one bit at a time from the lowest. *)
Fixpoint popc (n : nat) (x : Z) : Z :=
  match n with
  | O => 0
  | S n' => Z.b2z (Z.odd x) + popc n' (Z.div2 x)
  end.

(** The words of the buffer. *)
Definition words_of (data : list byte) (nwords : Z) : list Z :=
  map (word_at data) (range nwords).

(** A value as the specification prints it. *)
Definition hex_value (w : Z) : string := "0x" ++ fmt_08x w.

(** The values of an array, eight to a line. *)
Fixpoint lines_of (fuel : nat) (vs : list string) : list (list string) :=
  match fuel with
  | O => []
  | S fuel' =>
      match vs with
      | [] => []
      | _ :: _ => firstn 8 vs :: lines_of fuel' (skipn 8 vs)
      end
  end.

(** The array literal of the specification: the values separated by
    commas, eight to a line, closed by a brace and a semicolon. *)
Definition array_literal (name : string) (ws : list Z) : string :=
  "static u32 " ++ name ++ "[] = {" ++ nl
  ++ String.concat ("," ++ nl)
       (map (String.concat ", ")
            (lines_of (List.length ws) (map hex_value ws)))
  ++ " } ;" ++ nl ++ nl.

Definition is_hex_digit (c : ascii) : bool :=
  existsb (Ascii.eqb c)
    ["0"; "1"; "2"; "3"; "4"; "5"; "6"; "7";
     "8"; "9"; "a"; "b"; "c"; "d"; "e"; "f"]%char.

(** The preamble of the specification. *)
Definition preamble_text : string :=
  "/* File generated by gen_random_init.c */" ++ nl ++ nl
  ++ "#define INPUT_POOL_WORDS 128" ++ nl
  ++ "#define OUTPUT_POOL_WORDS 32" ++ nl
  ++ "#define INPUT_POOL_SHIFT 12" ++ nl ++ nl.

(** ** Notions for the properties *)

(** The byte values the switch of [accept] returns 0 on. *)
Definition rejected_byte (b : Z) : bool := (b =? 0x00) || (b =? 0xAD).

(** What follows value [i] of [nwords] (lines 190-194). *)
Definition separator (nwords i : Z) : string :=
  if i =? nwords - 1 then " } ;" ++ nl
  else if Z.rem i PER_LINE =? PER_LINE - 1 then "," ++ nl
  else ", ".

(** What the output loop writes for the indices [idx]. *)
Fixpoint words_text (nwords : Z) (data : list byte) (idx : list Z) : string :=
  match idx with
  | [] => ""
  | i :: idx' =>
      "0x" ++ fmt_08x (word_at data i) ++ separator nwords i
      ++ words_text nwords data idx'
  end.

(** What lines 187-196 write for the buffer [data]. *)
Definition block_text (nwords : Z) (name : string) (data : list byte) : string :=
  "static u32 " ++ name ++ "[] = {" ++ nl
  ++ words_text nwords data (range nwords) ++ nl.

(** The values [vs] of an array of [n], from index [i] on, each followed by
    its separator. *)
Fixpoint emit (n i : Z) (vs : list string) : string :=
  match vs with
  | [] => ""
  | v :: vs' => v ++ separator n i ++ emit n (i + 1) vs'
  end.

(** One text goes on from another. *)
Definition extends (s s' : string) : Prop := exists o, s' = s ++ o.

(** The state after more text on the standard output. *)
Definition more_stdout (st : state) (s : string) : state :=
  mkState (urandom st) (n_calloc st) (n_read st) (stdout st ++ s) (stderr st).

(** The state after [k] more calls of [read]. *)
Definition more_reads (st : state) (k : nat) : state :=
  mkState (urandom st) (n_calloc st) (n_read st + k) (stdout st) (stderr st).

(** The value returned by a call of [read] that finds [r]. *)
Definition read_count (r : option (list byte)) (count : Z) : Z :=
  match r with
  | None => -1
  | Some bs => Z.of_nat (List.length (firstn (Z.to_nat count) bs))
  end.

(** Whether the call of [calloc] of [do_block] finds memory in [st]. *)
Definition calloc_succeeds (e : env) (nwords : Z) (st : state) : bool :=
  (size_t_of_int nwords * 4 <? 2 ^ 64) && calloc_ok e (n_calloc st).

(** The state after one more call of [calloc]. *)
Definition more_calloc (st : state) : state :=
  mkState (urandom st) (S (n_calloc st)) (n_read st) (stdout st) (stderr st).

(** The state after more text on the standard error stream. *)
Definition more_stderr (st : state) (s : string) : state :=
  mkState (urandom st) (n_calloc st) (n_read st) (stdout st) (stderr st ++ s).

(** The texts of the second part of [main_blocks]. *)
Definition gcm_text : string :=
  "#define ARRAY_WORDS " ++ fmt_d ARRAY_WORDS ++ nl ++ nl.
Definition counter_text : string :=
  "static u32 *counter = constants + ARRAY_WORDS ;" ++ nl.

(** The k-th call of [read] finds four bytes that form an accepted word. *)
Definition good_read (e : env) (k : nat) : Prop :=
  exists bs, dev_read e k = Some bs
             /\ (4 <= List.length bs)%nat
             /\ accept (load32 bs 0) = Some 1.

(** The device on which [n] zero bytes are available at every call. *)
Definition zero_device (n : nat) : env :=
  mkEnv true (fun _ => true) (fun _ => Some (repeat x00 n)).

(** A buffer of zero bytes. *)
Definition all_zero (data : list byte) : Prop := Forall (eq x00) data.

(** A device for examples: the first read finds a zero word and the word
    0x0f0f0f00, the second is short, the third fails, the fourth brings
    an accepted word, and so does every later one. *)
Definition sample_device : env :=
  mkEnv true (fun _ => true)
        (fun k => match k with
                  | 0%nat => Some [x00; x00; x00; x00; x00; x0f; x0f; x0f]
                  | 1%nat => Some [x0f; x0f]
                  | 2%nat => None
                  | _ => Some [x12; x34; x56; x78; x9a]
                  end).

(** A device on which every read finds 768 bytes 0x5a. *)
Definition steady_device : env :=
  mkEnv true (fun _ => true) (fun _ => Some (repeat x5a 768)).


(** ** Notions for the further properties *)

(** The value of a hexadecimal digit, and of a string of them read as
    a number, the highest digit first. *)
Definition hex_digit_value (c : ascii) : Z :=
  if is_hex_digit c then
    (if Ascii.ltb c "a"%char then Z.of_nat (nat_of_ascii c) - 48
     else Z.of_nat (nat_of_ascii c) - 87)
  else 0.

Fixpoint parse_hex_from (acc : Z) (s : string) : Z :=
  match s with
  | EmptyString => acc
  | String c s' => parse_hex_from (16 * acc + hex_digit_value c) s'
  end.

Definition parse_hex (s : string) : Z := parse_hex_from 0 s.

(** The k-th call of [read] stores nothing: it fails, or finds no byte. *)
Definition stores_nothing (e : env) (k : nat) : Prop :=
  dev_read e k = None \/ dev_read e k = Some [].

(** A device whose first read finds two zero words and which is at its end
    afterwards. *)
Definition drained_device : env :=
  mkEnv true (fun _ => true)
        (fun k => match k with
                  | 0%nat => Some (repeat x00 8)
                  | _ => Some []
                  end).

(** A device whose first read finds an accepted word and a zero word. *)
Definition mixed_device : env :=
  mkEnv true (fun _ => true)
        (fun k => match k with
                  | 0%nat => Some [x5a; x5a; x5a; x5a; x00; x00; x00; x00]
                  | _ => Some [x12; x34; x56; x78; x9a]
                  end).




(** * Properties *)

(** Linear arithmetic with division and remainder by constants. *)
Ltac divlia := Z.to_euclidean_division_equations; lia.

(** ** Bits *)

Lemma filter_map_length {A B : Type} (f : B -> bool) (g : A -> B) (l : list A) :
  List.length (filter f (map g l)) = List.length (filter (fun a => f (g a)) l).
Proof.
  induction l as [| a l IH]; simpl; [reflexivity |].
  destruct (f (g a)); simpl; rewrite IH; reflexivity.
Qed.

Lemma popc_count (n : nat) : forall x : Z,
  Z.of_nat (List.length (filter (Z.testbit x) (map Z.of_nat (seq 0 n)))) = popc n x.
Proof.
  induction n as [| n IH]; intros x; [reflexivity |].
  assert (E : Z.of_nat (List.length (filter (Z.testbit x) (map Z.of_nat (seq 1 n))))
              = popc n (Z.div2 x)).
  { rewrite <- seq_shift, map_map, filter_map_length, <- IH, filter_map_length.
    do 2 f_equal. apply filter_ext. intros a.
    rewrite Nat2Z.inj_succ, Z.div2_spec, Z.shiftr_spec by lia.
    f_equal; lia. }
  cbn [seq popc map filter]. change (Z.of_nat 0) with 0.
  rewrite Z.bit0_odd.
  destruct (Z.odd x); cbn [List.length Z.b2z]; lia.
Qed.

Lemma popcount_popc (x : Z) : popcount x = popc 32 x.
Proof. unfold popcount, range. apply popc_count. Qed.

Lemma popc_nonneg (n : nat) : forall x, 0 <= popc n x.
Proof.
  induction n as [| n IH]; intros x; cbn [popc]; [lia |].
  specialize (IH (Z.div2 x)). destruct (Z.odd x); cbn [Z.b2z]; lia.
Qed.

Lemma popc_le (n : nat) : forall x, popc n x <= Z.of_nat n.
Proof.
  induction n as [| n IH]; intros x; cbn [popc]; [lia |].
  specialize (IH (Z.div2 x)). destruct (Z.odd x); cbn [Z.b2z]; lia.
Qed.

Lemma popc_0 (n : nat) : popc n 0 = 0.
Proof. induction n as [| n IH]; cbn [popc]; [reflexivity |]. cbn. exact IH. Qed.

Lemma odd_land (a b : Z) : Z.odd (Z.land a b) = Z.odd a && Z.odd b.
Proof. rewrite <- !Z.bit0_odd. apply Z.land_spec. Qed.

Lemma div2_land (a b : Z) : Z.div2 (Z.land a b) = Z.land (Z.div2 a) (Z.div2 b).
Proof. rewrite !Z.div2_spec. apply Z.shiftr_land. Qed.

(** Kernighan's step: [x & (x-1)] has one bit less than [x]. *)
Lemma popc_clear_lowest (n : nat) : forall x,
  0 < x < 2 ^ Z.of_nat n ->
  popc n (Z.land x (x - 1)) = popc n x - 1.
Proof.
  induction n as [| n IH]; intros x Hx.
  - cbn in Hx. lia.
  - cbn [popc]. rewrite odd_land, div2_land.
    pose proof (Z.div2_odd x) as Ex. rewrite Z.div2_div in Ex.
    rewrite Nat2Z.inj_succ, Z.pow_succ_r in Hx by lia.
    destruct (Z.odd x) eqn:Hodd; cbn [Z.b2z] in *.
    + replace (Z.div2 (x - 1)) with (Z.div2 x) by (rewrite !Z.div2_div; divlia).
      replace (Z.odd (x - 1)) with false.
      2:{ replace (x - 1) with (2 * (x / 2)) by lia.
          symmetry. apply Z.odd_even. }
      rewrite Z.land_diag. cbn [andb Z.b2z]. lia.
    + replace (Z.div2 (x - 1)) with (Z.div2 x - 1) by (rewrite !Z.div2_div; divlia).
      rewrite IH by (rewrite Z.div2_div; divlia). cbn [andb Z.b2z]. lia.
Qed.

Lemma land_upper (a b : Z) : 0 <= a -> 0 <= b -> Z.land a b <= b.
Proof.
  intros Ha Hb.
  rewrite <- (Z2N.id a), <- (Z2N.id b) at 1 by assumption.
  rewrite <- N2Z.inj_land.
  rewrite <- (Z2N.id b) at 2 by assumption.
  apply N2Z.inj_le, N.land_le_r.
Qed.

Lemma land_pred_bounds (x : Z) : 0 < x -> 0 <= Z.land x (x - 1) <= x - 1.
Proof.
  intros Hx. split.
  - apply Z.land_nonneg. lia.
  - apply land_upper; lia.
Qed.

(** On a nonzero [u32] the body of the loop of [hamming] wraps nowhere. *)
Lemma hamming_body_nowrap (x : Z) :
  is_u32 x -> x <> 0 -> wrap32 (Z.land x (wrap32 (x - 1))) = Z.land x (x - 1).
Proof.
  unfold is_u32, wrap32. intros Hx Hnz.
  rewrite (Z.mod_small (x - 1)) by lia.
  pose proof (land_pred_bounds x ltac:(lia)).
  apply Z.mod_small. lia.
Qed.

(** The loop of [hamming] adds the population count to [h] and returns as
    soon as the fuel exceeds that count; with less fuel it does not. *)
Lemma hamming_loop_popc (fuel : nat) : forall x h,
  is_u32 x ->
  hamming_loop fuel x h
  = if popc 32 x <? Z.of_nat fuel then Some (h + popc 32 x) else None.
Proof.
  induction fuel as [| fuel IH]; intros x h Hx.
  - pose proof (popc_nonneg 32 x).
    destruct (Z.ltb_spec (popc 32 x) (Z.of_nat 0)); [lia | reflexivity].
  - cbn [hamming_loop]. destruct (Z.eqb_spec x 0) as [-> | Hnz].
    + rewrite popc_0. destruct (Z.ltb_spec 0 (Z.of_nat (S fuel))); [f_equal; lia | lia].
    + rewrite hamming_body_nowrap by assumption.
      assert (Hx' : 0 < x < 2 ^ Z.of_nat 32) by (unfold is_u32 in Hx; cbn; lia).
      pose proof (popc_clear_lowest 32 x Hx') as E.
      pose proof (land_pred_bounds x ltac:(lia)) as B.
      rewrite IH by (unfold is_u32 in *; lia).
      rewrite E.
      destruct (Z.ltb_spec (popc 32 x - 1) (Z.of_nat fuel));
        destruct (Z.ltb_spec (popc 32 x) (Z.of_nat (S fuel))); try lia;
        [f_equal; lia | reflexivity].
Qed.

Lemma testbit_pos (x j : Z) :
  0 < j -> Z.testbit x j = Z.testbit (Z.div2 x) (j - 1).
Proof.
  intros Hj. rewrite Z.div2_spec, Z.shiftr_spec by lia. f_equal. lia.
Qed.

(** Kernighan's step clears the lowest bit set and no other. *)
Lemma land_pred_clears_lowest (n : nat) : forall x,
  0 < x < 2 ^ Z.of_nat n ->
  exists k, 0 <= k < Z.of_nat n
    /\ Z.testbit x k = true
    /\ (forall j, 0 <= j < k -> Z.testbit x j = false)
    /\ (forall j, 0 <= j ->
          Z.testbit (Z.land x (x - 1)) j = Z.testbit x j && negb (j =? k)).
Proof.
  induction n as [| n IH]; intros x Hx.
  - cbn in Hx. lia.
  - pose proof (Z.div2_odd x) as Ex. rewrite Z.div2_div in Ex.
    rewrite Nat2Z.inj_succ, Z.pow_succ_r in Hx by lia.
    destruct (Z.odd x) eqn:Hodd; cbn [Z.b2z] in Ex.
    + exists 0. split; [lia |]. split; [rewrite Z.bit0_odd; exact Hodd |].
      split; [intros j Hj; lia |].
      intros j Hj. rewrite Z.land_spec.
      destruct (Z.eqb_spec j 0) as [-> | Hj0]; cbn [negb].
      * rewrite !Z.bit0_odd.
        replace (x - 1) with (2 * (x / 2)) by lia.
        rewrite Z.odd_even. reflexivity.
      * rewrite (testbit_pos (x - 1)), (testbit_pos x) by lia.
        replace (Z.div2 (x - 1)) with (Z.div2 x)
          by (rewrite !Z.div2_div; divlia).
        rewrite andb_true_r. apply andb_diag.
    + destruct (IH (Z.div2 x)) as (k & Hk & Hset & Hlow & Hclr).
      { rewrite Z.div2_div. divlia. }
      exists (k + 1). split; [lia |].
      split; [rewrite testbit_pos by lia; rewrite <- Hset; f_equal; lia |].
      split.
      * intros j Hj. destruct (Z.eq_dec j 0) as [-> | Hj0].
        -- rewrite Z.bit0_odd. exact Hodd.
        -- rewrite testbit_pos by lia. apply Hlow. lia.
      * intros j Hj. destruct (Z.eq_dec j 0) as [-> | Hj0].
        -- rewrite Z.land_spec, !Z.bit0_odd, Hodd. reflexivity.
        -- rewrite (testbit_pos (Z.land x (x - 1))), (testbit_pos x) by lia.
           rewrite div2_land.
           replace (Z.div2 (x - 1)) with (Z.div2 x - 1)
             by (rewrite !Z.div2_div; divlia).
           rewrite Hclr by lia. do 2 f_equal.
           destruct (Z.eqb_spec (j - 1) k); destruct (Z.eqb_spec j (k + 1));
             try reflexivity; lia.
Qed.

(** ** hamming *)

Lemma hamming_returns (x : Z) : is_u32 x -> hamming x = Some (popcount x).
Proof.
  intros Hx. unfold hamming, hamming_fuel.
  rewrite hamming_loop_popc by assumption.
  rewrite popcount_popc.
  pose proof (popc_le 32 x).
  destruct (Z.ltb_spec (popc 32 x) (Z.of_nat 33)); [reflexivity | lia].
Qed.

Lemma popcount_bounds (x : Z) : 0 <= popcount x <= 32.
Proof.
  rewrite popcount_popc.
  pose proof (popc_nonneg 32 x). pose proof (popc_le 32 x). lia.
Qed.

(** C8. For every 32-bit [x], [hamming x] returns the population count of
    [x]; its loop evaluates its test [popcount x + 1] times, that is, runs
    its body exactly [popcount x] times (less fuel does not reach the
    return, more is not used); and the body, [x &= (x-1)], clears the
    lowest bit set of a nonzero [x] and leaves the other bits. *)
Theorem hamming_popcount (x : Z) :
  is_u32 x ->
  hamming x = Some (popcount x)
  /\ (forall (fuel : nat) (h : Z),
        hamming_loop fuel x h
        = if popcount x <? Z.of_nat fuel then Some (h + popcount x) else None)
  /\ (x <> 0 ->
      exists k, 0 <= k < 32
        /\ Z.testbit x k = true
        /\ (forall j, 0 <= j < k -> Z.testbit x j = false)
        /\ (forall j, 0 <= j ->
              Z.testbit (wrap32 (Z.land x (wrap32 (x - 1)))) j
              = Z.testbit x j && negb (j =? k))).
Proof.
  intros Hx. split; [apply hamming_returns; assumption |]. split.
  - intros fuel h. rewrite popcount_popc. apply hamming_loop_popc. assumption.
  - intros Hnz. rewrite hamming_body_nowrap by assumption.
    apply (land_pred_clears_lowest 32). unfold is_u32 in Hx. cbn. lia.
Qed.

Lemma hamming_popcount_witness :
  is_u32 0x0F0F0F0F /\ hamming 0x0F0F0F0F = Some 16
  /\ hamming_loop 17 0x0F0F0F0F 0 = Some 16
  /\ hamming_loop 16 0x0F0F0F0F 0 = None
  /\ exists k, 0 <= k < 32
       /\ Z.testbit 0x0F0F0F0F k = true
       /\ (forall j, 0 <= j < k -> Z.testbit 0x0F0F0F0F j = false)
       /\ (forall j, 0 <= j ->
             Z.testbit (wrap32 (Z.land 0x0F0F0F0F (wrap32 (0x0F0F0F0F - 1)))) j
             = Z.testbit 0x0F0F0F0F j && negb (j =? k)).
Proof.
  assert (H : is_u32 0x0F0F0F0F) by (unfold is_u32; lia).
  destruct (hamming_popcount 0x0F0F0F0F H) as (E1 & E2 & E3).
  split; [exact H |]. split; [exact E1 |].
  split; [rewrite E2; reflexivity |].
  split; [rewrite E2; reflexivity |].
  apply E3. discriminate.
Defined.

(** ** accept *)

Lemma byte_of_u32_range (u i : Z) : 0 <= byte_of_u32 u i <= 255.
Proof.
  unfold byte_of_u32. split.
  - apply Z.land_nonneg. right. lia.
  - rewrite Z.land_comm. rewrite Z.land_comm.
    destruct (Z.le_gt_cases 0 (Z.shiftr u (8 * i))) as [H | H].
    + apply land_upper; lia.
    + change 255 with (Z.ones 8). rewrite Z.land_ones by lia.
      pose proof (Z.mod_pos_bound (Z.shiftr u (8 * i)) (2 ^ 8) ltac:(lia)).
      change (Z.ones 8) with 255. change (2 ^ 8) with 256 in *. lia.
Qed.

Lemma switch_rejected_byte (b : Z) :
  0 <= b <= 255 ->
  (char_of_byte b =? chr_0) || (char_of_byte b =? chr_255) = rejected_byte b.
Proof.
  intros Hb. change chr_0 with 0. change chr_255 with (-83).
  unfold rejected_byte, char_of_byte.
  destruct (Z.ltb_spec b 128);
    destruct (Z.eqb_spec b 0); destruct (Z.eqb_spec b 0xAD);
    repeat match goal with
           | |- context [ ?a =? ?c ] => destruct (Z.eqb_spec a c)
           end; try reflexivity; exfalso; lia.
Qed.

Lemma accept_bytes_existsb (u : Z) (idx : list Z) :
  accept_bytes u idx
  = if existsb (fun i => rejected_byte (byte_of_u32 u i)) idx then 0 else 1.
Proof.
  induction idx as [| i idx IH]; cbn [accept_bytes existsb]; [reflexivity |].
  unfold char_at. rewrite switch_rejected_byte by apply byte_of_u32_range.
  destruct (rejected_byte (byte_of_u32 u i)); [reflexivity | exact IH].
Qed.

(** What [accept] computes, in one expression. *)
Lemma accept_eq (u : Z) :
  is_u32 u ->
  accept u
  = Some (if (popcount u <? 8) || (popcount u >? 24) then 0
          else if existsb (fun i => rejected_byte (byte_of_u32 u i)) [0; 1; 2; 3]
               then 0 else 1).
Proof.
  intros Hu. unfold accept. rewrite hamming_returns by assumption.
  change MIN with 8. change MAX with 24.
  destruct ((popcount u <? 8) || (popcount u >? 24)); [reflexivity |].
  rewrite accept_bytes_existsb. reflexivity.
Qed.

Lemma index_in_4 (i : Z) : In i [0; 1; 2; 3] <-> 0 <= i < 4.
Proof. cbn [In]. lia. Qed.

(** C3. The byte test of [accept] rejects the byte values 0x00 and 0xAD
    (the value of ['\255'], octal): a word with such a byte is rejected, a
    word with a population count in [8, 24] and no such byte is accepted,
    and some accepted word has a byte 0xFF. *)
Theorem accept_rejects_00_and_AD :
  (forall u, is_u32 u ->
     ((exists i, 0 <= i < 4
         /\ (byte_of_u32 u i = 0x00 \/ byte_of_u32 u i = 0xAD))
      -> accept u = Some 0)
     /\ (8 <= popcount u <= 24 ->
         (forall i, 0 <= i < 4 ->
            byte_of_u32 u i <> 0x00 /\ byte_of_u32 u i <> 0xAD) ->
         accept u = Some 1))
  /\ (exists w, is_u32 w
        /\ (exists i, 0 <= i < 4 /\ byte_of_u32 w i = 0xFF)
        /\ 8 <= popcount w <= 24
        /\ accept w = Some 1).
Proof.
  split.
  - intros u Hu. rewrite accept_eq by assumption. split.
    + intros (i & Hi & Hb).
      destruct ((popcount u <? 8) || (popcount u >? 24)); [reflexivity |].
      replace (existsb _ _) with true; [reflexivity |].
      symmetry. apply existsb_exists. exists i.
      split; [apply index_in_4; exact Hi |].
      unfold rejected_byte. apply orb_true_iff.
      destruct Hb as [Hb | Hb]; [left | right]; apply Z.eqb_eq; exact Hb.
    + intros Hp Hb.
      destruct (Z.ltb_spec (popcount u) 8); [lia |].
      destruct (Z.gtb_spec (popcount u) 24); [lia |].
      cbn [orb].
      destruct (existsb _ _) eqn:E; [| reflexivity].
      apply existsb_exists in E. destruct E as (i & Hi & Hr).
      apply index_in_4 in Hi. destruct (Hb i Hi) as [Hn0 HnAD].
      unfold rejected_byte in Hr. apply orb_true_iff in Hr.
      destruct Hr as [Hr | Hr]; apply Z.eqb_eq in Hr; contradiction.
  - exists 0xFF0F0F0F. split; [unfold is_u32; lia |].
    split; [exists 3; split; [lia | reflexivity] |].
    split; [vm_compute; split; discriminate | reflexivity].
Qed.

Lemma accept_rejects_00_and_AD_witness :
  accept 0x0F0FAD0F = Some 0 /\ accept 0x12345678 = Some 1.
Proof.
  split.
  - apply (proj1 accept_rejects_00_and_AD 0x0F0FAD0F).
    + unfold is_u32. lia.
    + exists 1. split; [lia | right; reflexivity].
  - apply (proj1 accept_rejects_00_and_AD 0x12345678).
    + unfold is_u32. lia.
    + vm_compute. split; discriminate.
    + intros i Hi.
      assert (Hc : i = 0 \/ i = 1 \/ i = 2 \/ i = 3) by lia.
      destruct Hc as [-> | [-> | [-> | ->]]]; vm_compute; split; discriminate.
Defined.

(** C1. [accept] is not the filter of the specification (a population
    count in [8, 24] and no byte 0x00 or 0xFF), because its switch tests
    ['\255'], the byte 0xAD, where its comment asks for a byte of ones:
    the word 0xFF0F0F0F has 20 bits set and the byte 0xFF, and [accept]
    returns 1 for it; the word 0xAD0F0F0F has 17 bits set and no byte
    0x00 or 0xFF, and [accept] returns 0 for it. *)
Theorem accept_misses_FF_byte :
  is_u32 0xFF0F0F0F
  /\ popcount 0xFF0F0F0F = 20
  /\ byte_of_u32 0xFF0F0F0F 3 = 0xFF
  /\ accept 0xFF0F0F0F = Some 1
  /\ is_u32 0xAD0F0F0F
  /\ popcount 0xAD0F0F0F = 17
  /\ (forall i, 0 <= i < 4 ->
        byte_of_u32 0xAD0F0F0F i <> 0x00 /\ byte_of_u32 0xAD0F0F0F i <> 0xFF)
  /\ accept 0xAD0F0F0F = Some 0.
Proof.
  repeat split; try reflexivity; try (vm_compute; discriminate).
  all: assert (Hc : i = 0 \/ i = 1 \/ i = 2 \/ i = 3) by lia;
    destruct Hc as [-> | [-> | [-> | ->]]]; vm_compute; discriminate.
Qed.

(** C9. The test vectors of the specification: 0x00000000, 0xFFFFFFFF and
    0x0000000F are rejected with population counts 0, 32 and 4;
    0x0F0F0F0F is accepted with population count 16; 0x00FFFF00 is
    rejected although its population count is 16. *)
Theorem accept_test_vectors :
  (hamming 0x00000000 = Some 0 /\ accept 0x00000000 = Some 0)
  /\ (hamming 0xFFFFFFFF = Some 32 /\ accept 0xFFFFFFFF = Some 0)
  /\ (hamming 0x0000000F = Some 4 /\ accept 0x0000000F = Some 0)
  /\ (hamming 0x0F0F0F0F = Some 16
      /\ (forall i, 0 <= i < 4 -> byte_of_u32 0x0F0F0F0F i = 0x0F)
      /\ accept 0x0F0F0F0F = Some 1)
  /\ (hamming 0x00FFFF00 = Some 16
      /\ byte_of_u32 0x00FFFF00 0 = 0x00
      /\ accept 0x00FFFF00 = Some 0).
Proof.
  repeat split; try reflexivity.
  intros i Hi. assert (Hc : i = 0 \/ i = 1 \/ i = 2 \/ i = 3) by lia.
  destruct Hc as [-> | [-> | [-> | ->]]]; reflexivity.
Qed.

(** ** Memory *)

Lemma write_length (data : list byte) : forall off bs,
  List.length (write data off bs) = List.length data.
Proof.
  induction data as [| d data IH]; intros off bs; [reflexivity |].
  destruct off as [| off]; cbn [write].
  - destruct bs as [| b bs]; [reflexivity |]. cbn [List.length]. rewrite IH. reflexivity.
  - cbn [List.length]. rewrite IH. reflexivity.
Qed.

Lemma write_nil (data : list byte) : forall off, write data off [] = data.
Proof.
  induction data as [| d data IH]; intros off; [reflexivity |].
  destruct off as [| off]; cbn [write]; [reflexivity |]. rewrite IH. reflexivity.
Qed.

(** A write leaves the bytes below its offset. *)
Lemma write_nth_below (data : list byte) : forall off bs k,
  (k < off)%nat -> nth k (write data off bs) x00 = nth k data x00.
Proof.
  induction data as [| d data IH]; intros off bs k Hk; [reflexivity |].
  destruct off as [| off]; [lia |]. cbn [write].
  destruct k as [| k]; [reflexivity |]. cbn [nth]. apply IH. lia.
Qed.

(** A write that fits stores its bytes from its offset on. *)
Lemma write_nth_inside (data : list byte) : forall off bs k,
  (off + List.length bs <= List.length data)%nat ->
  (k < List.length bs)%nat ->
  nth (off + k) (write data off bs) x00 = nth k bs x00.
Proof.
  induction data as [| d data IH]; intros off bs k Hfit Hk.
  - cbn [List.length] in Hfit. lia.
  - destruct off as [| off]; cbn [write].
    + destruct bs as [| b bs]; [cbn [List.length] in Hk; lia |].
      destruct k as [| k]; [reflexivity |].
      cbn [nth Nat.add]. cbn [List.length] in *.
      apply (IH O bs k); lia.
    + cbn [nth Nat.add]. cbn [List.length] in Hfit. apply IH; lia.
Qed.

Lemma Z_of_byte_range (b : byte) : 0 <= Z_of_byte b <= 255.
Proof.
  unfold Z_of_byte. pose proof (Byte.to_N_bounded b). lia.
Qed.

Lemma load32_is_u32 (data : list byte) (off : nat) : is_u32 (load32 data off).
Proof.
  unfold is_u32, load32.
  pose proof (Z_of_byte_range (nth off data x00)).
  pose proof (Z_of_byte_range (nth (off + 1) data x00)).
  pose proof (Z_of_byte_range (nth (off + 2) data x00)).
  pose proof (Z_of_byte_range (nth (off + 3) data x00)).
  lia.
Qed.

Lemma word_at_is_u32 (data : list byte) (i : Z) : is_u32 (word_at data i).
Proof. apply load32_is_u32. Qed.

(** A write at word [i] leaves the words below [i]. *)
Lemma word_at_write_below (data bs : list byte) (i j : Z) :
  0 <= j < i ->
  word_at (write data (Z.to_nat (4 * i)) bs) j = word_at data j.
Proof.
  intros Hj. unfold word_at, load32.
  rewrite !write_nth_below by lia. reflexivity.
Qed.

(** A read of four bytes stored at word [i] is the word at [i]. *)
Lemma word_at_write_same (data bs : list byte) (i : Z) :
  0 <= i ->
  List.length bs = 4%nat ->
  (Z.to_nat (4 * i) + 4 <= List.length data)%nat ->
  word_at (write data (Z.to_nat (4 * i)) bs) i = load32 bs 0.
Proof.
  intros Hi Hbs Hfit. unfold word_at, load32.
  set (o := Z.to_nat (4 * i)) in *.
  replace (nth o (write data o bs) x00) with (nth (o + 0) (write data o bs) x00)
    by (rewrite Nat.add_0_r; reflexivity).
  rewrite !write_nth_inside by lia. reflexivity.
Qed.

(** ** The outcome of accept *)

Lemma accept_bytes_01 (u : Z) (idx : list Z) :
  accept_bytes u idx = 0 \/ accept_bytes u idx = 1.
Proof.
  induction idx as [| i idx IH]; cbn [accept_bytes]; [right; reflexivity |].
  destruct (_ || _); [left; reflexivity | exact IH].
Qed.

Lemma accept_01 (u a : Z) : accept u = Some a -> a = 0 \/ a = 1.
Proof.
  unfold accept. destruct (hamming u) as [h |]; [| discriminate].
  destruct (_ || _); intros H.
  - left. congruence.
  - replace a with (accept_bytes u [0; 1; 2; 3]) by congruence.
    apply accept_bytes_01.
Qed.

Lemma accept_total (u : Z) :
  is_u32 u -> accept u = Some 0 \/ accept u = Some 1.
Proof.
  intros Hu. rewrite accept_eq by assumption.
  destruct (_ || _); [left; reflexivity |].
  destruct (existsb _ _); [left | right]; reflexivity.
Qed.

Lemma append_assoc (a b c : string) : (a ++ b) ++ c = a ++ (b ++ c).
Proof.
  induction a as [| ch a IH]; cbn [append]; [reflexivity |].
  rewrite IH. reflexivity.
Qed.

Lemma append_nil_r (a : string) : a ++ "" = a.
Proof.
  induction a as [| ch a IH]; cbn [append]; [reflexivity |].
  rewrite IH. reflexivity.
Qed.

Lemma more_stdout_more (st : state) (s t : string) :
  more_stdout (more_stdout st s) t = more_stdout st (s ++ t).
Proof. unfold more_stdout. cbn. rewrite append_assoc. reflexivity. Qed.

Lemma more_stdout_nil (st : state) : more_stdout st "" = st.
Proof. destruct st. unfold more_stdout. cbn. rewrite append_nil_r. reflexivity. Qed.

Section Runs.

Variable e : env.

Lemma print_word_text (nwords : Z) (data : list byte) (i : Z) (st : state) :
  print_word nwords data i st
  = (Ret tt, more_stdout st ("0x" ++ fmt_08x (word_at data i) ++ separator nwords i)).
Proof.
  unfold print_word, separator, bind.
  change (printf ?s ?st) with (Ret tt, more_stdout st s). cbv iota beta.
  destruct (i =? nwords - 1); [| destruct (Z.rem i PER_LINE =? PER_LINE - 1)];
    change (printf ?s ?st) with (Ret tt, more_stdout st s);
    rewrite more_stdout_more, append_assoc; reflexivity.
Qed.

Lemma print_loop_text (nwords : Z) (data : list byte) (idx : list Z) :
  forall st,
    print_loop nwords data idx st
    = (Ret tt, more_stdout st (words_text nwords data idx)).
Proof.
  induction idx as [| i idx IH]; intros st; cbn [print_loop words_text].
  - unfold ret. rewrite more_stdout_nil. reflexivity.
  - unfold bind. rewrite print_word_text, IH, more_stdout_more.
    rewrite !append_assoc. reflexivity.
Qed.

Lemma more_reads_0 (st : state) : more_reads st 0 = st.
Proof. destruct st. unfold more_reads. cbn. rewrite Nat.add_0_r. reflexivity. Qed.

Lemma more_reads_S (st : state) (k : nat) :
  more_reads (more_reads st 1) k = more_reads st (S k).
Proof. unfold more_reads. cbn. f_equal. lia. Qed.

Lemma sys_read_eq (count : Z) (st : state) :
  sys_read e count st
  = (Ret (match dev_read e (n_read st) with
          | None => (-1, [])
          | Some bs => (Z.of_nat (List.length (firstn (Z.to_nat count) bs)),
                        firstn (Z.to_nat count) bs)
          end), more_reads st 1).
Proof.
  unfold sys_read, more_reads. rewrite Nat.add_1_r.
  destruct (dev_read e (n_read st)); reflexivity.
Qed.

Lemma retry_loop_O (i x : Z) (data : list byte) (st : state) :
  retry_loop e O i x data st = (Timeout, st).
Proof. reflexivity. Qed.

Lemma retry_loop_S (fuel : nat) (i x : Z) (data : list byte) (st : state) :
  retry_loop e (S fuel) i x data st
  = match accept (word_at data i) with
    | None => (Timeout, st)
    | Some a =>
        if a =? 0 then
          let res := match dev_read e (n_read st) with
                     | None => (-1, [])
                     | Some bs =>
                         (Z.of_nat (List.length (firstn 4 bs)), firstn 4 bs)
                     end in
          retry_loop e fuel i (fst res)
                     (write data (Z.to_nat (4 * i)) (snd res)) (more_reads st 1)
        else (Ret (x, data), st)
    end.
Proof.
  cbn [retry_loop]. destruct (accept (word_at data i)) as [a |]; [| reflexivity].
  destruct (a =? 0); [| reflexivity].
  unfold bind. rewrite sys_read_eq. change (Z.to_nat 4) with 4%nat.
  destruct (dev_read e (n_read st)); reflexivity.
Qed.

Lemma replace_loop_O (nwords i x : Z) (data : list byte) (st : state) :
  replace_loop e O nwords i x data st = (Timeout, st).
Proof. reflexivity. Qed.

Lemma replace_loop_S (fuel : nat) (nwords i x : Z) (data : list byte) (st : state) :
  replace_loop e (S fuel) nwords i x data st
  = if negb (x =? 0) && (i <? nwords) then
      match retry_loop e fuel i x data st with
      | (Ret (x', data'), st') => replace_loop e fuel nwords (i + 1) x' data' st'
      | (Exit c, st') => (Exit c, st')
      | (Undefined, st') => (Undefined, st')
      | (Timeout, st') => (Timeout, st')
      end
    else (Ret data, st).
Proof.
  cbn [replace_loop]. destruct (negb (x =? 0) && (i <? nwords)); [| reflexivity].
  unfold bind. destruct (retry_loop e fuel i x data st) as [[[x' data'] | | |] st'];
    reflexivity.
Qed.

(** What a call of [read] for four bytes stores and returns: nothing
    stored, or a value other than 0. *)
Lemma read4_result (r : option (list byte)) :
  let res := match r with
             | None => (-1, [])
             | Some bs => (Z.of_nat (List.length (firstn 4 bs)), firstn 4 bs)
             end in
  fst res <> 0 \/ snd res = [].
Proof.
  destruct r as [bs |]; cbn [fst snd].
  - destruct (firstn 4 bs); [right; reflexivity |]. left. cbn [List.length]. lia.
  - left. lia.
Qed.

(** The retry loop of word [i]: it only reads; when it returns, word [i]
    is accepted, the words below [i] are as before and [x] is not 0
    unless it was 0 when an accepted word was met at once. *)
Lemma retry_loop_returns (fuel : nat) : forall i x data st r st',
  retry_loop e fuel i x data st = (r, st') ->
  0 <= i ->
  (exists k, st' = more_reads st k)
  /\ (r = Timeout
      \/ exists x' data',
           r = Ret (x', data')
           /\ List.length data' = List.length data
           /\ (forall j, 0 <= j < i -> word_at data' j = word_at data j)
           /\ accept (word_at data' i) = Some 1
           /\ (x <> 0 \/ accept (word_at data i) = Some 0 -> x' <> 0)).
Proof.
  induction fuel as [| fuel IH]; intros i x data st r st' Hrun Hi.
  - rewrite retry_loop_O in Hrun. injection Hrun as <- <-.
    split; [exists O; symmetry; apply more_reads_0 | left; reflexivity].
  - rewrite retry_loop_S in Hrun.
    destruct (accept (word_at data i)) as [a |] eqn:Ha.
    2:{ injection Hrun as <- <-.
        split; [exists O; symmetry; apply more_reads_0 | left; reflexivity]. }
    destruct (Z.eqb_spec a 0) as [-> | Hnz].
    + pose proof (read4_result (dev_read e (n_read st))) as Hres.
      cbv zeta in Hrun, Hres.
      destruct (match dev_read e (n_read st) with
                | None => _ | Some bs => _ end) as [x1 got].
      cbn [fst snd] in Hrun, Hres.
      apply IH in Hrun; [| exact Hi].
      destruct Hrun as [[k Hk] Hr]. split.
      * exists (S k). rewrite Hk. apply more_reads_S.
      * destruct Hr as [-> | (x' & data' & -> & Hlen & Hlow & Hacc & Hx)];
          [left; reflexivity | right].
        exists x', data'. split; [reflexivity |].
        split; [rewrite Hlen; apply write_length |].
        split; [intros j Hj; rewrite Hlow by exact Hj;
                apply word_at_write_below; exact Hj |].
        split; [exact Hacc |].
        intros _. apply Hx.
        destruct Hres as [Hx1 | ->]; [left; exact Hx1 |].
        right. rewrite write_nil. exact Ha.
    + injection Hrun as <- <-.
      split; [exists O; symmetry; apply more_reads_0 | right].
      exists x, data. split; [reflexivity |]. split; [reflexivity |].
      split; [intros; reflexivity |].
      split; [destruct (accept_01 _ _ Ha); [contradiction | congruence] |].
      intros [Hx | Hx]; [exact Hx | congruence].
Qed.

Lemma more_reads_add (st : state) (k l : nat) :
  more_reads (more_reads st k) l = more_reads st (k + l).
Proof. unfold more_reads. cbn. f_equal. lia. Qed.

(** The replacement loop entered at word [i] with the words below [i]
    accepted: it only reads; when it returns, all words are accepted. *)
Lemma replace_loop_returns (fuel : nat) : forall nwords i x data st r st',
  replace_loop e fuel nwords i x data st = (r, st') ->
  0 <= i -> x <> 0 ->
  (forall j, 0 <= j < i -> accept (word_at data j) = Some 1) ->
  (exists k, st' = more_reads st k)
  /\ (r = Timeout
      \/ exists data',
           r = Ret data'
           /\ List.length data' = List.length data
           /\ (forall j, 0 <= j < nwords -> accept (word_at data' j) = Some 1)).
Proof.
  induction fuel as [| fuel IH]; intros nwords i x data st r st' Hrun Hi Hx Hlow.
  - rewrite replace_loop_O in Hrun. injection Hrun as <- <-.
    split; [exists O; symmetry; apply more_reads_0 | left; reflexivity].
  - rewrite replace_loop_S in Hrun.
    destruct (Z.eqb_spec x 0) as [| _]; [contradiction |]. cbn [negb andb] in Hrun.
    destruct (Z.ltb_spec i nwords) as [Hlt | Hge].
    + destruct (retry_loop e fuel i x data st) as [r1 st1] eqn:Hretry.
      apply retry_loop_returns in Hretry; [| exact Hi].
      destruct Hretry as [[k1 ->] [-> | (x1 & data1 & -> & Hlen1 & Hlow1 & Hacc1 & Hx1)]].
      * injection Hrun as <- <-. split; [exists k1; reflexivity | left; reflexivity].
      * apply IH in Hrun; [| lia | apply Hx1; left; exact Hx |].
        -- destruct Hrun as [[k2 ->] Hr]. split.
           ++ exists (k1 + k2)%nat. apply more_reads_add.
           ++ destruct Hr as [-> | (data' & -> & Hlen & Hall)];
                [left; reflexivity | right].
              exists data'. split; [reflexivity |].
              split; [congruence | exact Hall].
        -- intros j Hj. destruct (Z.eq_dec j i) as [-> | Hne]; [exact Hacc1 |].
           rewrite Hlow1 by lia. apply Hlow. lia.
    + injection Hrun as <- <-.
      split; [exists O; symmetry; apply more_reads_0 | right].
      exists data. split; [reflexivity |]. split; [reflexivity |].
      intros j Hj. apply Hlow. lia.
Qed.

(** The outcomes of [do_block], one by one. *)
Lemma do_block_outcome (fuel : nat) (nwords : Z) (name : string) (st : state) :
  forall r st',
    do_block e fuel nwords name st = (r, st') ->
    match r with
    | Undefined => int_ok (4 * nwords) = false /\ st' = st
    | Exit c =>
        c = 1 /\ int_ok (4 * nwords) = true
        /\ ((calloc_succeeds e nwords st = false
             /\ st' = more_stderr (more_calloc st) msg_calloc)
            \/ (calloc_succeeds e nwords st = true
                /\ read_count (dev_read e (n_read st)) (4 * nwords) <> 4 * nwords
                /\ st' = more_stderr (more_reads (more_calloc st) 1) msg_read))
    | Timeout =>
        int_ok (4 * nwords) = true /\ calloc_succeeds e nwords st = true
        /\ read_count (dev_read e (n_read st)) (4 * nwords) = 4 * nwords
        /\ exists k, st' = more_reads (more_calloc st) (S k)
    | Ret _ =>
        int_ok (4 * nwords) = true /\ calloc_succeeds e nwords st = true
        /\ read_count (dev_read e (n_read st)) (4 * nwords) = 4 * nwords
        /\ exists k data',
             List.length data' = Z.to_nat (4 * nwords)
             /\ (forall j, 0 <= j < nwords -> accept (word_at data' j) = Some 1)
             /\ st' = more_stdout (more_reads (more_calloc st) (S k))
                                  (block_text nwords name data')
    end.
Proof.
  intros r st' Hrun. unfold do_block in Hrun.
  destruct (int_ok (4 * nwords)) eqn:Hok; cbn [negb] in Hrun.
  2:{ injection Hrun as <- <-. split; reflexivity. }
  unfold bind at 1 in Hrun. unfold sys_calloc in Hrun.
  fold (calloc_succeeds e nwords st) in Hrun. fold (more_calloc st) in Hrun.
  destruct (calloc_succeeds e nwords st) eqn:Hmem.
  2:{ cbn in Hrun. injection Hrun as <- <-.
      split; [reflexivity |]. split; [reflexivity |]. left. split; reflexivity. }
  unfold bind at 1 in Hrun. rewrite sys_read_eq in Hrun.
  change (n_read (more_calloc st)) with (n_read st) in Hrun.
  assert (Hcount : fst (match dev_read e (n_read st) with
                        | None => (-1, [])
                        | Some bs =>
                            (Z.of_nat (List.length (firstn (Z.to_nat (4 * nwords)) bs)),
                             firstn (Z.to_nat (4 * nwords)) bs)
                        end) = read_count (dev_read e (n_read st)) (4 * nwords)).
  { destruct (dev_read e (n_read st)); reflexivity. }
  assert (Hgot : Z.of_nat (List.length (snd (match dev_read e (n_read st) with
                        | None => (-1, [])
                        | Some bs =>
                            (Z.of_nat (List.length (firstn (Z.to_nat (4 * nwords)) bs)),
                             firstn (Z.to_nat (4 * nwords)) bs)
                        end))) <= Z.max 0 (read_count (dev_read e (n_read st)) (4 * nwords))).
  { destruct (dev_read e (n_read st)); cbn [snd read_count List.length]; lia. }
  destruct (match dev_read e (n_read st) with
            | None => _ | Some bs => _ end) as [x got].
  cbn [fst snd] in Hcount, Hgot. subst x.
  destruct (Z.eqb_spec (read_count (dev_read e (n_read st)) (4 * nwords)) (4 * nwords))
    as [Hfull | Hshort]; cbn [negb] in Hrun.
  2:{ cbn in Hrun. injection Hrun as <- <-.
      split; [reflexivity |]. split; [reflexivity |]. right.
      split; [reflexivity |]. split; [exact Hshort | reflexivity]. }
  unfold bind at 1 in Hrun.
  destruct (replace_loop e fuel nwords 0 1 _ _) as [r1 st1] eqn:Hloop.
  apply replace_loop_returns in Hloop; [| lia | lia | intros j Hj; lia].
  destruct Hloop as [[k ->] [-> | (data' & -> & Hlen & Hall)]].
  - injection Hrun as <- <-. repeat split; try assumption.
    exists k. rewrite more_reads_add. reflexivity.
  - unfold bind in Hrun.
    change (printf ?s ?st) with (Ret tt, more_stdout st s) in Hrun. cbv iota beta in Hrun.
    rewrite print_loop_text in Hrun.
    change (printf ?s ?st) with (Ret tt, more_stdout st s) in Hrun.
    injection Hrun as <- <-. repeat split; try assumption.
    exists k, data'. split; [| split; [exact Hall |]].
    + rewrite Hlen, write_length, repeat_length.
      unfold calloc_succeeds in Hmem. apply andb_true_iff in Hmem.
      destruct Hmem as [Hsz _]. apply Z.ltb_lt in Hsz.
      unfold int_ok in Hok. apply andb_true_iff in Hok.
      destruct Hok as [Hlo Hhi]. apply Z.leb_le in Hlo, Hhi.
      unfold size_t_of_int, INT_MIN, INT_MAX in *.
      assert (0 <= nwords) by divlia.
      rewrite Z.mod_small by lia. f_equal. lia.
    + rewrite !more_stdout_more, more_reads_add. change (1 + k)%nat with (S k).
      f_equal. unfold block_text, nl. cbn [append].
      rewrite append_assoc. reflexivity.
Qed.

End Runs.

(** ** Termination of the replacement loop *)

Lemma load32_firstn (bs : list byte) : load32 (firstn 4 bs) 0 = load32 bs 0.
Proof. unfold load32. rewrite !nth_firstn. reflexivity. Qed.

Section Termination.

Variable e : env.

Lemma retry_loop_mono (fuel : nat) : forall fuel' i x data st v st',
  retry_loop e fuel i x data st = (Ret v, st') ->
  (fuel <= fuel')%nat ->
  retry_loop e fuel' i x data st = (Ret v, st').
Proof.
  induction fuel as [| fuel IH]; intros fuel' i x data st v st' Hrun Hle.
  - rewrite retry_loop_O in Hrun. discriminate Hrun.
  - destruct fuel' as [| fuel']; [lia |].
    rewrite retry_loop_S in Hrun |- *.
    destruct (accept (word_at data i)) as [a |]; [| discriminate Hrun].
    destruct (a =? 0); [| exact Hrun].
    cbv zeta in Hrun |- *. apply IH; [exact Hrun | lia].
Qed.

Lemma replace_loop_mono (fuel : nat) : forall fuel' nwords i x data st v st',
  replace_loop e fuel nwords i x data st = (Ret v, st') ->
  (fuel <= fuel')%nat ->
  replace_loop e fuel' nwords i x data st = (Ret v, st').
Proof.
  induction fuel as [| fuel IH]; intros fuel' nwords i x data st v st' Hrun Hle.
  - rewrite replace_loop_O in Hrun. discriminate Hrun.
  - destruct fuel' as [| fuel']; [lia |].
    rewrite replace_loop_S in Hrun |- *.
    destruct (negb (x =? 0) && (i <? nwords)); [| exact Hrun].
    destruct (retry_loop e fuel i x data st) as [[[x1 data1] | | |] st1] eqn:Hretry;
      try discriminate Hrun.
    rewrite (retry_loop_mono fuel fuel' _ _ _ _ _ _ Hretry) by lia.
    apply IH; [exact Hrun | lia].
Qed.

Hypothesis supplied : forall k, exists j, (k <= j)%nat /\ good_read e j.

(** The retry loop of a word inside the buffer returns: at the latest
    when the next good read arrives. *)
Lemma retry_loop_terminates (i : Z) :
  0 <= i ->
  forall (d : nat) x data st j,
    (j = n_read st + d)%nat -> good_read e j ->
    (Z.to_nat (4 * i) + 4 <= List.length data)%nat ->
    exists fuel v st', retry_loop e fuel i x data st = (Ret v, st').
Proof.
  intros Hi. induction d as [| d IH]; intros x data st j Hj Hgood Hfit.
  - destruct (accept_total (word_at data i) (word_at_is_u32 _ _)) as [Ha | Ha].
    + destruct Hgood as (bs & Hbs & Hlen & Hacc).
      exists 2%nat. rewrite retry_loop_S, Ha. cbn [Z.eqb]. cbv zeta.
      replace (n_read st) with j by lia. rewrite Hbs. cbn [fst snd].
      assert (Hw : word_at (write data (Z.to_nat (4 * i)) (firstn 4 bs)) i
                   = load32 bs 0).
      { rewrite word_at_write_same.
        - apply load32_firstn.
        - exact Hi.
        - rewrite length_firstn. lia.
        - exact Hfit. }
      rewrite retry_loop_S, Hw, Hacc. cbn [Z.eqb]. eexists _, _. reflexivity.
    + exists 1%nat. rewrite retry_loop_S, Ha. cbn [Z.eqb].
      eexists _, _. reflexivity.
  - destruct (accept_total (word_at data i) (word_at_is_u32 _ _)) as [Ha | Ha].
    + set (res := match dev_read e (n_read st) with
                  | None => (-1, [])
                  | Some bs => (Z.of_nat (List.length (firstn 4 bs)), firstn 4 bs)
                  end).
      destruct (IH (fst res) (write data (Z.to_nat (4 * i)) (snd res))
                   (more_reads st 1) j) as (fuel & v & st' & Hrun).
      * cbn [more_reads n_read]. lia.
      * exact Hgood.
      * rewrite write_length. exact Hfit.
      * exists (S fuel), v, st'. rewrite retry_loop_S, Ha. cbn [Z.eqb]. cbv zeta.
        exact Hrun.
    + exists 1%nat. rewrite retry_loop_S, Ha. cbn [Z.eqb].
      eexists _, _. reflexivity.
Qed.

(** The replacement loop returns. *)
Lemma replace_loop_terminates (nwords : Z) :
  forall (rem : nat) i x data st,
    0 <= i -> nwords - i <= Z.of_nat rem ->
    List.length data = Z.to_nat (4 * nwords) ->
    exists fuel data' st',
      replace_loop e fuel nwords i x data st = (Ret data', st').
Proof.
  induction rem as [| rem IH]; intros i x data st Hi Hrem Hlen.
  - exists 1%nat. rewrite replace_loop_S.
    destruct (Z.ltb_spec i nwords); [lia |]. rewrite andb_false_r.
    eexists _, _. reflexivity.
  - destruct (negb (x =? 0) && (i <? nwords)) eqn:Hcond.
    2:{ exists 1%nat. rewrite replace_loop_S, Hcond. eexists _, _. reflexivity. }
    apply andb_true_iff in Hcond. destruct Hcond as [Hx Hlt]. apply Z.ltb_lt in Hlt.
    destruct (supplied (n_read st)) as (j & Hj & Hgood).
    destruct (retry_loop_terminates i Hi (j - n_read st) x data st j)
      as (f1 & [x1 data1] & st1 & Hretry); [lia | exact Hgood | lia |].
    pose proof (retry_loop_returns e f1 i x data st _ _ Hretry Hi) as [_ Hr].
    destruct Hr as [Hr | (x' & data' & Hr & Hlen1 & _)]; [discriminate Hr |].
    injection Hr as <- <-.
    destruct (IH (i + 1) x1 data1 st1) as (f2 & data2 & st2 & Hrest);
      [lia | lia | congruence |].
    exists (S (Nat.max f1 f2)), data2, st2. rewrite replace_loop_S.
    rewrite Hx. destruct (Z.ltb_spec i nwords); [| lia].
    cbn [andb].
    rewrite (retry_loop_mono f1 (Nat.max f1 f2) _ _ _ _ _ _ Hretry) by lia.
    apply (replace_loop_mono f2); [exact Hrest | lia].
Qed.

(** [do_block] returns once it has its memory and its first read. *)
Lemma do_block_terminates (nwords : Z) (name : string) (st : state) :
  int_ok (4 * nwords) = true ->
  calloc_succeeds e nwords st = true ->
  read_count (dev_read e (n_read st)) (4 * nwords) = 4 * nwords ->
  exists fuel0, forall fuel, (fuel0 <= fuel)%nat ->
    exists st', do_block e fuel nwords name st = (Ret tt, st').
Proof.
  intros Hok Hmem Hfull.
  assert (Hn : 0 <= nwords).
  { destruct (dev_read e (n_read st)); cbn [read_count] in Hfull; [lia |].
    unfold int_ok, INT_MIN in Hok. apply andb_true_iff in Hok.
    destruct Hok as [Hlo _]. apply Z.leb_le in Hlo.
    unfold calloc_succeeds in Hmem. apply andb_true_iff in Hmem.
    destruct Hmem as [Hsz _]. apply Z.ltb_lt in Hsz.
    unfold size_t_of_int in Hsz. divlia. }
  assert (Hsize : size_t_of_int nwords * 4 = 4 * nwords).
  { unfold size_t_of_int. unfold int_ok, INT_MAX in Hok.
    apply andb_true_iff in Hok. destruct Hok as [_ Hhi]. apply Z.leb_le in Hhi.
    rewrite Z.mod_small by lia. lia. }
  set (got := snd (match dev_read e (n_read st) with
                   | None => (-1, [])
                   | Some bs =>
                       (Z.of_nat (List.length (firstn (Z.to_nat (4 * nwords)) bs)),
                        firstn (Z.to_nat (4 * nwords)) bs)
                   end)).
  set (data := write (repeat x00 (Z.to_nat (size_t_of_int nwords * 4))) 0 got).
  destruct (replace_loop_terminates nwords (Z.to_nat nwords) 0 1 data
              (more_reads (more_calloc st) 1))
    as (fuel0 & data' & st1 & Hloop).
  { lia. }
  { lia. }
  { subst data. rewrite write_length, repeat_length, Hsize. reflexivity. }
  exists fuel0. intros fuel Hfuel.
  apply (replace_loop_mono fuel0 fuel) in Hloop; [| exact Hfuel].
  unfold do_block. rewrite Hok. cbn [negb].
  unfold bind at 1. unfold sys_calloc.
  fold (calloc_succeeds e nwords st). rewrite Hmem.
  fold (more_calloc st).
  unfold bind at 1. rewrite sys_read_eq.
  change (n_read (more_calloc st)) with (n_read st).
  assert (Hx : fst (match dev_read e (n_read st) with
                    | None => (-1, [])
                    | Some bs =>
                        (Z.of_nat (List.length (firstn (Z.to_nat (4 * nwords)) bs)),
                         firstn (Z.to_nat (4 * nwords)) bs)
                    end) = 4 * nwords).
  { destruct (dev_read e (n_read st)); exact Hfull. }
  subst data got.
  destruct (match dev_read e (n_read st) with
            | None => _ | Some bs => _ end) as [x got].
  cbn [fst snd] in *. subst x. rewrite Z.eqb_refl. cbn [negb].
  unfold bind at 1. rewrite Hloop.
  unfold bind. change (printf ?s ?st) with (Ret tt, more_stdout st s). cbv iota beta.
  rewrite print_loop_text. eexists. reflexivity.
Qed.

End Termination.

(** ** A device that never supplies an accepted word *)

Lemma all_zero_nth (data : list byte) : all_zero data ->
  forall k, nth k data x00 = x00.
Proof.
  intros Hz. induction Hz as [| b data Hb _ IH]; intros [| k]; cbn [nth];
    try reflexivity; [symmetry; exact Hb | apply IH].
Qed.

Lemma all_zero_word (data : list byte) (i : Z) : all_zero data -> word_at data i = 0.
Proof.
  intros Hz. unfold word_at, load32. rewrite !all_zero_nth by exact Hz. reflexivity.
Qed.

Lemma all_zero_write (data : list byte) : forall off bs,
  all_zero data -> all_zero bs -> all_zero (write data off bs).
Proof.
  unfold all_zero.
  induction data as [| d data IH]; intros off bs Hd Hbs; [constructor |].
  pose proof (Forall_inv Hd) as Hd1. pose proof (Forall_inv_tail Hd) as Hd2.
  destruct off as [| off]; cbn [write].
  - destruct bs as [| b bs]; [exact Hd |].
    constructor; [exact (Forall_inv Hbs) |].
    apply IH; [exact Hd2 | exact (Forall_inv_tail Hbs)].
  - constructor; [exact Hd1 | apply IH; assumption].
Qed.

Lemma all_zero_repeat (n : nat) : all_zero (repeat x00 n).
Proof. induction n as [| n IH]; constructor; [reflexivity | exact IH]. Qed.

Lemma all_zero_firstn (n : nat) : forall data : list byte,
  all_zero data -> all_zero (firstn n data).
Proof.
  unfold all_zero. induction n as [| n IH]; intros data Hz; [constructor |].
  destruct data as [| d data]; [constructor |]. cbn [firstn].
  constructor; [exact (Forall_inv Hz) | apply IH; exact (Forall_inv_tail Hz)].
Qed.

Lemma accept_zero : accept 0 = Some 0.
Proof. reflexivity. Qed.

(** On the zero device the retry loop of a zero word never returns. *)
Lemma retry_loop_zero_device (n : nat) (fuel : nat) : forall i x data st,
  all_zero data ->
  fst (retry_loop (zero_device n) fuel i x data st) = Timeout.
Proof.
  induction fuel as [| fuel IH]; intros i x data st Hz; [reflexivity |].
  rewrite retry_loop_S, all_zero_word by exact Hz. rewrite accept_zero.
  cbn [Z.eqb]. cbv zeta. cbn [zero_device dev_read fst snd].
  apply IH. apply all_zero_write; [exact Hz |].
  apply all_zero_firstn, all_zero_repeat.
Qed.

Lemma do_block_zero_device (n fuel : nat) (nwords : Z) (name : string) (st : state) :
  1 <= nwords -> int_ok (4 * nwords) = true -> 4 * nwords <= Z.of_nat n ->
  fst (do_block (zero_device n) fuel nwords name st) = Timeout.
Proof.
  intros Hn Hok Hfit.
  assert (Hsize : size_t_of_int nwords * 4 = 4 * nwords).
  { unfold size_t_of_int. unfold int_ok, INT_MAX in Hok.
    apply andb_true_iff in Hok. destruct Hok as [_ Hhi]. apply Z.leb_le in Hhi.
    rewrite Z.mod_small by lia. lia. }
  unfold do_block. rewrite Hok. cbn [negb].
  unfold bind at 1. unfold sys_calloc. cbn [zero_device calloc_ok].
  rewrite Hsize, andb_true_r.
  destruct (Z.ltb_spec (4 * nwords) (2 ^ 64)) as [_ | Hbig].
  2:{ unfold int_ok, INT_MAX in Hok. apply andb_true_iff in Hok.
      destruct Hok as [_ Hhi]. apply Z.leb_le in Hhi. lia. }
  unfold bind at 1. rewrite sys_read_eq. cbn [zero_device dev_read].
  rewrite length_firstn, repeat_length.
  replace (Z.of_nat (Nat.min (Z.to_nat (4 * nwords)) n)) with (4 * nwords) by lia.
  rewrite Z.eqb_refl. cbn [negb].
  unfold bind at 1.
  match goal with
  | |- context [replace_loop ?e ?f ?nw 0 1 ?d ?s] =>
      assert (Hloop : fst (replace_loop e f nw 0 1 d s) = Timeout);
      [| destruct (replace_loop e f nw 0 1 d s) as [r1 st1];
         cbn [fst] in Hloop; subst r1; reflexivity]
  end.
  destruct fuel as [| fuel]; [reflexivity |].
  rewrite replace_loop_S. cbn [Z.eqb negb andb].
  destruct (Z.ltb_spec 0 nwords); [| lia].
  match goal with
  | |- context [retry_loop ?e ?f 0 1 ?d ?s] =>
      pose proof (retry_loop_zero_device n f 0 1 d s) as Hretry;
      destruct (retry_loop e f 0 1 d s) as [r1 st1]
  end.
  cbn [fst] in Hretry. rewrite Hretry; [reflexivity |].
  apply all_zero_write; [apply all_zero_repeat |].
  apply all_zero_firstn, all_zero_repeat.
Qed.

(** ** do_block *)

(** C2. When a run of [do_block nwords name] returns, every word it has
    printed is a word of the buffer that [accept] returns 1 for, whether
    it was replaced or not; no assumption on the reads is needed beyond
    the return: a run returns only after a full first read, and a retry
    loop is left only on an accepted word. *)
Theorem do_block_words_accepted
    (e : env) (fuel : nat) (nwords : Z) (name : string) (st st' : state) :
  do_block e fuel nwords name st = (Ret tt, st') ->
  exists data',
    List.length data' = Z.to_nat (4 * nwords)
    /\ stdout st' = stdout st ++ block_text nwords name data'
    /\ forall j, 0 <= j < nwords -> accept (word_at data' j) = Some 1.
Proof.
  intros Hrun. apply do_block_outcome in Hrun.
  destruct Hrun as (_ & _ & _ & k & data' & Hlen & Hall & ->).
  exists data'. split; [exact Hlen |]. split; [reflexivity | exact Hall].
Qed.

Lemma do_block_words_accepted_witness :
  exists data',
    List.length data' = 8%nat
    /\ stdout (snd (do_block sample_device 9 2 "t" initial_state))
       = "" ++ block_text 2 "t" data'
    /\ forall j, 0 <= j < 2 -> accept (word_at data' j) = Some 1.
Proof.
  apply (do_block_words_accepted sample_device 9 2 "t" initial_state
           (snd (do_block sample_device 9 2 "t" initial_state))).
  vm_compute. reflexivity.
Defined.

(** C4. The replacement loop of [do_block] returns, for every fuel from
    some bound on, when, from every call of [read] on, some later call
    brings four bytes that form an accepted word; and it is not bound to
    return: on the device that supplies zero bytes for ever, a run for
    one word or more uses up every fuel. *)
Theorem replacement_loop_termination :
  (forall (e : env) (nwords : Z) (name : string) (st : state),
     int_ok (4 * nwords) = true ->
     calloc_succeeds e nwords st = true ->
     read_count (dev_read e (n_read st)) (4 * nwords) = 4 * nwords ->
     (forall k, exists j, (k <= j)%nat /\ good_read e j) ->
     exists fuel0, forall fuel, (fuel0 <= fuel)%nat ->
       exists st', do_block e fuel nwords name st = (Ret tt, st'))
  /\ (forall (nwords : Z) (name : string) (st : state),
        1 <= nwords -> int_ok (4 * nwords) = true ->
        exists e,
          dev_open e = true
          /\ (forall k, calloc_ok e k = true)
          /\ (forall k, read_count (dev_read e k) (4 * nwords) = 4 * nwords
                        /\ read_count (dev_read e k) 4 = 4)
          /\ (forall k, ~ good_read e k)
          /\ forall fuel, fst (do_block e fuel nwords name st) = Timeout).
Proof.
  split.
  - intros e nwords name st Hok Hmem Hfull Hsup.
    apply do_block_terminates; assumption.
  - intros nwords name st Hn Hok.
    exists (zero_device (Z.to_nat (4 * nwords))).
    split; [reflexivity |]. split; [reflexivity |]. split; [| split].
    + intros k. cbn [zero_device dev_read read_count].
      rewrite !length_firstn, repeat_length. split; lia.
    + intros k (bs & Hbs & Hlen & Hacc). cbn [zero_device dev_read] in Hbs.
      assert (Hz : all_zero bs) by (injection Hbs as <-; apply all_zero_repeat).
      change (load32 bs 0) with (word_at bs 0) in Hacc.
      rewrite (all_zero_word bs 0 Hz), accept_zero in Hacc. discriminate Hacc.
    + intros fuel. apply do_block_zero_device; [exact Hn | exact Hok | lia].
Qed.

Lemma replacement_loop_termination_witness :
  (exists fuel0, forall fuel, (fuel0 <= fuel)%nat ->
     exists st', do_block sample_device fuel 2 "t" initial_state = (Ret tt, st'))
  /\ (exists e,
        dev_open e = true
        /\ (forall k, calloc_ok e k = true)
        /\ (forall k, read_count (dev_read e k) (4 * 2) = 4 * 2
                      /\ read_count (dev_read e k) 4 = 4)
        /\ (forall k, ~ good_read e k)
        /\ forall fuel, fst (do_block e fuel 2 "t" initial_state) = Timeout).
Proof.
  split.
  - apply (proj1 replacement_loop_termination sample_device 2 "t" initial_state).
    + reflexivity.
    + reflexivity.
    + reflexivity.
    + intros k. exists (S (S (S k))). split; [lia |].
      exists [x12; x34; x56; x78; x9a].
      split; [reflexivity |]. split; [cbn; lia | reflexivity].
  - apply (proj2 replacement_loop_termination 2 "t" initial_state).
    + lia.
    + reflexivity.
Defined.

(** C6. When the first read of [do_block] returns fewer bytes than the
    [4 * nwords] asked for, the run ends in [exit(1)] after this one
    read, with the diagnostic on the error stream and the standard output
    as it was before the call. *)
Theorem short_read_is_fatal
    (e : env) (fuel : nat) (nwords : Z) (name : string) (st : state) :
  int_ok (4 * nwords) = true ->
  calloc_succeeds e nwords st = true ->
  read_count (dev_read e (n_read st)) (4 * nwords) < 4 * nwords ->
  exists st',
    do_block e fuel nwords name st = (Exit 1, st')
    /\ stdout st' = stdout st
    /\ stderr st' = stderr st ++ msg_read
    /\ n_read st' = S (n_read st).
Proof.
  intros Hok Hmem Hshort.
  destruct (do_block e fuel nwords name st) as [r st'] eqn:Hrun.
  apply do_block_outcome in Hrun. exists st'.
  destruct r as [[] | c | |].
  - destruct Hrun as (_ & _ & Hfull & _). lia.
  - destruct Hrun as (-> & _ & [[Hfail _] | (_ & _ & ->)]); [congruence |].
    split; [reflexivity |]. split; [reflexivity |]. split; [reflexivity |].
    cbn [more_stderr more_reads more_calloc n_read]. lia.
  - destruct Hrun as [Hno _]. congruence.
  - destruct Hrun as (_ & _ & Hfull & _). lia.
Qed.

Lemma short_read_is_fatal_witness :
  exists st',
    do_block sample_device 9 3 "t" initial_state = (Exit 1, st')
    /\ stdout st' = ""
    /\ stderr st' = "" ++ msg_read
    /\ n_read st' = 1%nat.
Proof.
  apply (short_read_is_fatal sample_device 9 3 "t" initial_state).
  - reflexivity.
  - reflexivity.
  - vm_compute. reflexivity.
Defined.

(** ** main *)

Lemma print_preamble_text (st : state) :
  print_preamble st = (Ret tt, more_stdout st preamble_text).
Proof.
  unfold print_preamble, bind.
  change (printf ?s ?st) with (Ret tt, more_stdout st s). cbv iota beta.
  rewrite !more_stdout_more. reflexivity.
Qed.

Section Main.

Variable e : env.
Variable gcm : bool.

Lemma main_open_fails (fuel : nat) :
  dev_open e = false ->
  main e gcm fuel initial_state = (Exit 1, mkState (-1) 0 0 "" msg_open).
Proof.
  intros Hopen. unfold main, bind, sys_open. rewrite Hopen. reflexivity.
Qed.

Lemma main_opened (fuel : nat) :
  dev_open e = true ->
  main e gcm fuel initial_state
  = main_blocks e gcm fuel (mkState 3 0 0 preamble_text "").
Proof.
  intros Hopen. unfold main, bind at 1 2, sys_open. rewrite Hopen.
  cbn [set_urandom Z.eqb]. unfold bind at 1. rewrite print_preamble_text.
  reflexivity.
Qed.

Lemma main_blocks_eq (fuel : nat) (st : state) :
  main_blocks e gcm fuel st
  = match do_block e fuel TOTAL_POOL_WORDS "pools" st with
    | (Ret _, st1) =>
        if gcm then
          match do_block e fuel (ARRAY_WORDS + 8) "constants"
                         (more_stdout st1 gcm_text) with
          | (Ret _, st2) => (Exit 0, more_stdout st2 counter_text)
          | (Exit c, st2) => (Exit c, st2)
          | (Undefined, st2) => (Undefined, st2)
          | (Timeout, st2) => (Timeout, st2)
          end
        else (Exit 0, st1)
    | (Exit c, st1) => (Exit c, st1)
    | (Undefined, st1) => (Undefined, st1)
    | (Timeout, st1) => (Timeout, st1)
    end.
Proof.
  unfold main_blocks. unfold bind at 1.
  destruct (do_block e fuel TOTAL_POOL_WORDS "pools" st) as [[[] | c | |] st1];
    try reflexivity.
  destruct gcm; [| reflexivity].
  unfold bind.
  change (printf ?s ?st) with (Ret tt, more_stdout st s). cbv iota beta.
  fold gcm_text.
  destruct (do_block e fuel (ARRAY_WORDS + 8) "constants" _) as [[[] | c | |] st2];
    reflexivity.
Qed.

End Main.

(** What a run of [do_block] does to the two streams. *)
Lemma do_block_streams (e : env) (fuel : nat) (nwords : Z) (name : string)
    (st : state) (r : outcome unit) (st' : state) :
  do_block e fuel nwords name st = (r, st') ->
  (exists o, stdout st' = stdout st ++ o)
  /\ match r with
     | Exit c =>
         c = 1 /\ (stderr st' = stderr st ++ msg_calloc
                   \/ stderr st' = stderr st ++ msg_read)
     | Undefined => int_ok (4 * nwords) = false /\ stderr st' = stderr st
     | _ => stderr st' = stderr st
     end.
Proof.
  intros Hrun. apply do_block_outcome in Hrun.
  destruct r as [[] | c | |].
  - destruct Hrun as (_ & _ & _ & k & data' & _ & _ & ->).
    split; [eexists; reflexivity | reflexivity].
  - destruct Hrun as (-> & _ & [[_ ->] | (_ & _ & ->)]).
    + split; [exists ""; symmetry; apply append_nil_r |].
      split; [reflexivity | left; reflexivity].
    + split; [exists ""; symmetry; apply append_nil_r |].
      split; [reflexivity | right; reflexivity].
  - destruct Hrun as [Hno ->].
    split; [exists ""; symmetry; apply append_nil_r |].
    split; [exact Hno | reflexivity].
  - destruct Hrun as (_ & _ & _ & k & ->).
    split; [exists ""; symmetry; apply append_nil_r | reflexivity].
Qed.

(** [do_block] as one expression in the outcome of its replacement loop. *)
Lemma do_block_eq (e : env) (fuel : nat) (nwords : Z) (name : string) (st : state) :
  do_block e fuel nwords name st
  = if negb (int_ok (4 * nwords)) then (Undefined, st)
    else if calloc_succeeds e nwords st then
      let res := match dev_read e (n_read st) with
                 | None => (-1, [])
                 | Some bs =>
                     (Z.of_nat (List.length (firstn (Z.to_nat (4 * nwords)) bs)),
                      firstn (Z.to_nat (4 * nwords)) bs)
                 end in
      if negb (fst res =? 4 * nwords)
      then (Exit 1, more_stderr (more_reads (more_calloc st) 1) msg_read)
      else
        match replace_loop e fuel nwords 0 1
                (write (repeat x00 (Z.to_nat (size_t_of_int nwords * 4))) 0 (snd res))
                (more_reads (more_calloc st) 1) with
        | (Ret data', st1) => (Ret tt, more_stdout st1 (block_text nwords name data'))
        | (Exit c, st1) => (Exit c, st1)
        | (Undefined, st1) => (Undefined, st1)
        | (Timeout, st1) => (Timeout, st1)
        end
    else (Exit 1, more_stderr (more_calloc st) msg_calloc).
Proof.
  unfold do_block. destruct (negb (int_ok (4 * nwords))); [reflexivity |].
  unfold bind at 1. unfold sys_calloc.
  fold (calloc_succeeds e nwords st). fold (more_calloc st).
  destruct (calloc_succeeds e nwords st); [| reflexivity].
  unfold bind at 1. rewrite sys_read_eq.
  change (n_read (more_calloc st)) with (n_read st). cbv zeta.
  destruct (match dev_read e (n_read st) with
            | None => _ | Some bs => _ end) as [x got].
  cbn [fst snd]. destruct (negb (x =? 4 * nwords)); [reflexivity |].
  unfold bind at 1.
  destruct (replace_loop e fuel nwords 0 1 _ _) as [[data' | c | |] st1];
    try reflexivity.
  unfold bind. change (printf ?s ?st) with (Ret tt, more_stdout st s). cbv iota beta.
  rewrite print_loop_text.
  change (printf ?s ?st) with (Ret tt, more_stdout st s).
  rewrite !more_stdout_more. do 2 f_equal.
  unfold block_text, nl. cbn [append]. rewrite append_assoc. reflexivity.
Qed.


Lemma extends_refl (s : string) : extends s s.
Proof. exists "". symmetry. apply append_nil_r. Qed.

Lemma extends_trans (s t u : string) : extends s t -> extends t u -> extends s u.
Proof.
  intros [o ->] [o' ->]. exists (o ++ o'). apply append_assoc.
Qed.

Lemma extends_append (s o : string) : extends s (s ++ o).
Proof. exists o. reflexivity. Qed.

(** The outcomes of the blocks of [main] and what they leave on the two
    streams. *)
Lemma main_blocks_outcome (e : env) (gcm : bool) (fuel : nat)
    (st : state) (r : outcome unit) (st' : state) :
  main_blocks e gcm fuel st = (r, st') ->
  extends (stdout st) (stdout st')
  /\ ((r = Exit 0 /\ stderr st' = stderr st)
      \/ (r = Exit 1 /\ (stderr st' = stderr st ++ msg_calloc
                         \/ stderr st' = stderr st ++ msg_read))
      \/ (r = Timeout /\ stderr st' = stderr st)).
Proof.
  intros Hrun. rewrite main_blocks_eq in Hrun.
  destruct (do_block e fuel TOTAL_POOL_WORDS "pools" st) as [r1 st1] eqn:H1.
  apply do_block_streams in H1. destruct H1 as [Hout1 Herr1].
  destruct r1 as [[] | c | |].
  - destruct gcm.
    + destruct (do_block e fuel (ARRAY_WORDS + 8) "constants" _) as [r2 st2] eqn:H2.
      apply do_block_streams in H2. destruct H2 as [Hout2 Herr2].
      cbn [more_stdout stdout stderr] in Hout2, Herr2.
      assert (Hout : extends (stdout st) (stdout st2)).
      { apply (extends_trans _ (stdout st1)); [exact Hout1 |].
        apply (extends_trans _ (stdout st1 ++ gcm_text));
          [apply extends_append | exact Hout2]. }
      destruct r2 as [[] | c | |]; injection Hrun as <- <-.
      * split; [apply (extends_trans _ (stdout st2));
                  [exact Hout | apply extends_append] |].
        left. split; [reflexivity |]. cbn [more_stdout stderr]. congruence.
      * split; [exact Hout |]. destruct Herr2 as [-> Hmsg].
        right; left. split; [reflexivity |]. rewrite <- Herr1. exact Hmsg.
      * destruct Herr2 as [Hno _]. discriminate Hno.
      * split; [exact Hout |]. right; right. split; [reflexivity | congruence].
    + injection Hrun as <- <-. split; [exact Hout1 |]. left. split; [reflexivity | exact Herr1].
  - injection Hrun as <- <-. split; [exact Hout1 |]. destruct Herr1 as [-> Hmsg].
    right; left. split; [reflexivity | exact Hmsg].
  - destruct Herr1 as [Hno _]. discriminate Hno.
  - injection Hrun as <- <-. split; [exact Hout1 |]. right; right.
    split; [reflexivity | exact Herr1].
Qed.










(** C10. The compiled constants are 128 = 1<<(12-5), 32 = 1<<(10-5) and
    12; the preamble is the header comment and their three definitions;
    and once [/dev/urandom] is open, the blocks of [main] start with
    exactly the preamble on the standard output, before any call of
    [calloc] or [read], so that the output of the run begins with it. *)
Theorem preamble_printed :
  (INPUT_POOL_WORDS = 128 /\ INPUT_POOL_WORDS = Z.shiftl 1 (12 - 5)
   /\ OUTPUT_POOL_WORDS = 32 /\ OUTPUT_POOL_WORDS = Z.shiftl 1 (10 - 5)
   /\ INPUT_POOL_SHIFT = 12)
  /\ preamble_text
     = "/* File generated by gen_random_init.c */" ++ nl ++ nl
       ++ "#define INPUT_POOL_WORDS " ++ fmt_d INPUT_POOL_WORDS ++ nl
       ++ "#define OUTPUT_POOL_WORDS " ++ fmt_d OUTPUT_POOL_WORDS ++ nl
       ++ "#define INPUT_POOL_SHIFT " ++ fmt_d INPUT_POOL_SHIFT ++ nl ++ nl
  /\ forall e gcm fuel,
       dev_open e = true ->
       main e gcm fuel initial_state
       = main_blocks e gcm fuel (mkState 3 0 0 preamble_text "")
       /\ extends preamble_text (stdout (snd (main e gcm fuel initial_state))).
Proof.
  split; [repeat split |]. split; [reflexivity |].
  intros e gcm fuel Hopen. split; [apply main_opened; exact Hopen |].
  rewrite main_opened by exact Hopen.
  destruct (main_blocks e gcm fuel _) as [r st'] eqn:Hrun.
  apply main_blocks_outcome in Hrun. exact (proj1 Hrun).
Qed.

Lemma preamble_printed_witness :
  extends preamble_text
          (stdout (snd (main sample_device true 9%nat initial_state))).
Proof.
  apply (proj2 (proj2 preamble_printed) sample_device true 9%nat). reflexivity.
Defined.

(** ** The format of a block *)

Lemma words_text_emit (n : Z) (data : list byte) (idx : list Z) :
  forall i, idx = map Z.of_nat (seq (Z.to_nat i) (List.length idx)) -> 0 <= i ->
  words_text n data idx = emit n i (map hex_value (map (word_at data) idx)).
Proof.
  induction idx as [| j idx IH]; intros i Hidx Hi; [reflexivity |].
  cbn [List.length seq map] in Hidx. injection Hidx as Hj Hrest.
  cbn [words_text map emit]. rewrite (IH (i + 1)).
  - replace j with i by lia. unfold hex_value. rewrite !append_assoc. reflexivity.
  - rewrite Hrest at 1. do 2 f_equal. lia.
  - lia.
Qed.

Lemma separator_last (n i : Z) : i = n - 1 -> separator n i = " } ;" ++ nl.
Proof. intros ->. unfold separator. rewrite Z.eqb_refl. reflexivity. Qed.

Lemma separator_inner (n i : Z) :
  0 <= i < n - 1 -> i mod 8 < 7 -> separator n i = ", ".
Proof.
  intros Hi Hm. unfold separator, PER_LINE.
  destruct (Z.eqb_spec i (n - 1)); [lia |].
  rewrite Z.rem_mod_nonneg by lia.
  destruct (Z.eqb_spec (i mod 8) (8 - 1)); [lia | reflexivity].
Qed.

Lemma separator_line_end (n i : Z) :
  0 <= i < n - 1 -> i mod 8 = 7 -> separator n i = "," ++ nl.
Proof.
  intros Hi Hm. unfold separator, PER_LINE.
  destruct (Z.eqb_spec i (n - 1)); [lia |].
  rewrite Z.rem_mod_nonneg by lia.
  destruct (Z.eqb_spec (i mod 8) (8 - 1)); [reflexivity | lia].
Qed.

(** The last line of an array. *)
Lemma emit_last_line (n : Z) (vs : list string) : forall i,
  vs <> [] -> 0 <= i ->
  i mod 8 + Z.of_nat (List.length vs) <= 8 ->
  n = i + Z.of_nat (List.length vs) ->
  emit n i vs = String.concat ", " vs ++ " } ;" ++ nl.
Proof.
  induction vs as [| v vs IH]; intros i Hne Hi Hfit Hn; [contradiction |].
  destruct vs as [| v' vs].
  - cbn [List.length] in *. cbn [emit String.concat].
    rewrite separator_last by lia. rewrite append_nil_r. reflexivity.
  - cbn [List.length] in Hfit, Hn.
    change (emit n i (v :: v' :: vs))
      with (v ++ separator n i ++ emit n (i + 1) (v' :: vs)).
    change (String.concat ", " (v :: v' :: vs))
      with (v ++ ", " ++ String.concat ", " (v' :: vs)).
    rewrite separator_inner by lia.
    rewrite (IH (i + 1)).
    + rewrite !append_assoc. reflexivity.
    + discriminate.
    + lia.
    + cbn [List.length]. divlia.
    + cbn [List.length]. lia.
Qed.

(** A line of an array that is not the last. *)
Lemma emit_full_line (n : Z) (l rest : list string) : forall i,
  l <> [] -> 0 <= i ->
  i mod 8 + Z.of_nat (List.length l) = 8 ->
  i + Z.of_nat (List.length l) < n ->
  emit n i (l ++ rest)%list
  = String.concat ", " l ++ ("," ++ nl)
    ++ emit n (i + Z.of_nat (List.length l)) rest.
Proof.
  induction l as [| v l IH]; intros i Hne Hi Hfit Hn; [contradiction |].
  destruct l as [| v' l].
  - cbn [List.length] in *. cbn [emit String.concat app].
    rewrite separator_line_end by lia. reflexivity.
  - cbn [List.length] in Hfit, Hn.
    change (emit n i ((v :: v' :: l) ++ rest)%list)
      with (v ++ separator n i ++ emit n (i + 1) ((v' :: l) ++ rest)%list).
    change (String.concat ", " (v :: v' :: l))
      with (v ++ ", " ++ String.concat ", " (v' :: l)).
    rewrite separator_inner by lia.
    rewrite (IH (i + 1)).
    + replace (i + 1 + Z.of_nat (List.length (v' :: l)))
        with (i + Z.of_nat (List.length (v :: v' :: l)))
        by (cbn [List.length]; lia).
      rewrite !append_assoc. reflexivity.
    + discriminate.
    + lia.
    + cbn [List.length]. divlia.
    + cbn [List.length]. lia.
Qed.

Lemma lines_of_nil (fuel : nat) : lines_of fuel [] = [].
Proof. destruct fuel; reflexivity. Qed.

(** The loop of the code writes the lines of the specification. *)
Lemma emit_lines (fuel : nat) : forall (n i : Z) (vs : list string),
  (List.length vs <= fuel)%nat -> vs <> [] ->
  0 <= i -> i mod 8 = 0 -> n = i + Z.of_nat (List.length vs) ->
  emit n i vs
  = String.concat ("," ++ nl) (map (String.concat ", ") (lines_of fuel vs))
    ++ " } ;" ++ nl.
Proof.
  induction fuel as [| fuel IH]; intros n i vs Hfuel Hne Hi Hm Hn.
  - destruct vs; [contradiction | cbn [List.length] in Hfuel; lia].
  - destruct vs as [| v vs]; [contradiction |].
    cbn [lines_of]. set (ws := v :: vs) in *.
    destruct (Nat.leb_spec (List.length ws) 8) as [Hshort | Hlong].
    + rewrite firstn_all2, skipn_all2, lines_of_nil by lia.
      cbn [map String.concat]. apply emit_last_line; [discriminate | lia | lia | lia].
    + assert (Hl1 : List.length (firstn 8 ws) = 8%nat)
        by (rewrite length_firstn; lia).
      assert (Hl2 : List.length (skipn 8 ws) = (List.length ws - 8)%nat)
        by apply length_skipn.
      rewrite <- (firstn_skipn 8 ws) at 1.
      rewrite emit_full_line; [| | lia | lia | lia].
      2:{ intros E. rewrite E in Hl1. discriminate Hl1. }
      rewrite (IH n (i + Z.of_nat (List.length (firstn 8 ws))) (skipn 8 ws));
        [| lia | | lia | rewrite Hl1; divlia | lia].
      2:{ intros E. rewrite E in Hl2. cbn [List.length] in Hl2. lia. }
      destruct (lines_of fuel (skipn 8 ws)) as [| l ls] eqn:El.
      * exfalso. destruct fuel as [| fuel]; [lia |].
        cbn [lines_of] in El. destruct (skipn 8 ws); [| discriminate El].
        cbn [List.length] in Hl2. lia.
      * cbn [map].
        change (String.concat ("," ++ nl)
                  (String.concat ", " (firstn 8 ws)
                   :: String.concat ", " l :: map (String.concat ", ") ls))
          with (String.concat ", " (firstn 8 ws) ++ ("," ++ nl)
                ++ String.concat ("," ++ nl)
                     (String.concat ", " l :: map (String.concat ", ") ls)).
        rewrite !append_assoc. reflexivity.
Qed.

Lemma range_length (n : Z) : List.length (range n) = Z.to_nat n.
Proof. unfold range. rewrite length_map, length_seq. reflexivity. Qed.

Lemma words_of_length (data : list byte) (n : Z) :
  List.length (words_of data n) = Z.to_nat n.
Proof. unfold words_of. rewrite length_map. apply range_length. Qed.

(** For one word or more, the code writes the array literal of the
    specification. *)
Lemma block_text_literal (nwords : Z) (name : string) (data : list byte) :
  1 <= nwords ->
  block_text nwords name data = array_literal name (words_of data nwords).
Proof.
  intros Hn. unfold block_text, array_literal.
  rewrite (words_text_emit nwords data (range nwords) 0);
    [| unfold range; rewrite length_map, length_seq; reflexivity | lia].
  fold (words_of data nwords).
  rewrite (emit_lines (List.length (words_of data nwords)) nwords 0).
  - rewrite !append_assoc. reflexivity.
  - rewrite length_map. apply Nat.le_refl.
  - intros E. apply (f_equal (@List.length string)) in E.
    rewrite length_map, words_of_length in E. cbn [List.length] in E. lia.
  - lia.
  - reflexivity.
  - rewrite length_map, words_of_length. lia.
Qed.

(** *** The lines *)

Lemma lines_of_concat (fuel : nat) : forall vs : list string,
  (List.length vs <= fuel)%nat -> List.concat (lines_of fuel vs) = vs.
Proof.
  induction fuel as [| fuel IH]; intros vs Hfuel.
  - destruct vs; [reflexivity | cbn [List.length] in Hfuel; lia].
  - destruct vs as [| v vs]; [reflexivity |].
    cbn [lines_of List.concat]. rewrite IH.
    + apply firstn_skipn.
    + rewrite length_skipn. cbn [List.length] in *. lia.
Qed.

(** Every line but the last has eight values. *)
Lemma lines_of_full (fuel : nat) : forall (vs : list string) (i : nat),
  (S i < List.length (lines_of fuel vs))%nat ->
  List.length (nth i (lines_of fuel vs) []) = 8%nat.
Proof.
  induction fuel as [| fuel IH]; intros vs i Hi.
  - cbn [lines_of List.length] in Hi. lia.
  - destruct vs as [| v vs]; [cbn [lines_of List.length] in Hi; lia |].
    cbn [lines_of] in Hi |- *. cbn [List.length] in Hi.
    destruct i as [| i]; cbn [nth].
    + rewrite length_firstn.
      destruct (skipn 8 (v :: vs)) as [| w ws] eqn:E.
      * rewrite lines_of_nil in Hi. cbn [List.length] in Hi. lia.
      * apply (f_equal (@List.length string)) in E.
        rewrite length_skipn in E. cbn [List.length] in E |- *. lia.
    + apply IH. lia.
Qed.

(** Every line has one to eight values. *)
Lemma lines_of_bounds (fuel : nat) : forall vs : list string,
  Forall (fun l => (1 <= List.length l <= 8)%nat) (lines_of fuel vs).
Proof.
  induction fuel as [| fuel IH]; intros vs; [constructor |].
  destruct vs as [| v vs]; [constructor |].
  cbn [lines_of]. constructor; [| apply IH].
  rewrite length_firstn. cbn [List.length]. lia.
Qed.

(** *** The values *)

Lemma hex_digit_is_hex (d : Z) : is_hex_digit (hex_digit d) = true.
Proof.
  unfold hex_digit. generalize (Z.to_nat d) as n. intros n.
  do 16 (destruct n as [| n]; [reflexivity |]).
  destruct n; reflexivity.
Qed.

Lemma hex_value_digits (w : Z) :
  exists ds, hex_value w = "0x" ++ string_of_list_ascii ds
             /\ List.length ds = 8%nat
             /\ forallb is_hex_digit ds = true.
Proof.
  exists (map (fun k => hex_digit (nibble w k)) [7; 6; 5; 4; 3; 2; 1; 0]).
  split; [reflexivity |]. split; [reflexivity |].
  cbn [map forallb]. rewrite !hex_digit_is_hex. reflexivity.
Qed.

(** C7. For [nwords >= 1], a run of [do_block nwords name] that returns
    has added to the standard output the array literal of the
    specification for [nwords] words: [static u32 name[] = {], the values
    separated by commas and set eight to a line, then [ } ;]. Each value
    is [0x] and eight hexadecimal digits; the lines hold all the values
    in order, every line but the last has eight of them, and every line
    has one to eight. *)
Theorem block_format
    (e : env) (fuel : nat) (nwords : Z) (name : string) (st st' : state) :
  1 <= nwords ->
  do_block e fuel nwords name st = (Ret tt, st') ->
  exists ws,
    Z.of_nat (List.length ws) = nwords
    /\ stdout st' = stdout st ++ array_literal name ws
    /\ Forall (fun w => exists ds,
                 hex_value w = "0x" ++ string_of_list_ascii ds
                 /\ List.length ds = 8%nat
                 /\ forallb is_hex_digit ds = true) ws
    /\ List.concat (lines_of (List.length ws) (map hex_value ws))
       = map hex_value ws
    /\ (forall i,
          (S i < List.length (lines_of (List.length ws) (map hex_value ws)))%nat ->
          List.length (nth i (lines_of (List.length ws) (map hex_value ws)) [])
          = 8%nat)
    /\ Forall (fun l => (1 <= List.length l <= 8)%nat)
              (lines_of (List.length ws) (map hex_value ws)).
Proof.
  intros Hn Hrun. apply do_block_outcome in Hrun.
  destruct Hrun as (_ & _ & _ & k & data' & Hlen & _ & ->).
  exists (words_of data' nwords).
  split; [rewrite words_of_length; lia |].
  split; [cbn [more_stdout stdout more_reads more_calloc];
          rewrite block_text_literal by exact Hn; reflexivity |].
  split; [apply Forall_forall; intros w _; apply hex_value_digits |].
  split; [apply lines_of_concat; rewrite length_map; apply Nat.le_refl |].
  split; [intros i; apply lines_of_full | apply lines_of_bounds].
Qed.

Lemma block_format_witness :
  exists ws,
    Z.of_nat (List.length ws) = 2
    /\ stdout (snd (do_block sample_device 9 2 "t" initial_state))
       = "" ++ array_literal "t" ws
    /\ Forall (fun w => exists ds,
                 hex_value w = "0x" ++ string_of_list_ascii ds
                 /\ List.length ds = 8%nat
                 /\ forallb is_hex_digit ds = true) ws
    /\ List.concat (lines_of (List.length ws) (map hex_value ws))
       = map hex_value ws
    /\ (forall i,
          (S i < List.length (lines_of (List.length ws) (map hex_value ws)))%nat ->
          List.length (nth i (lines_of (List.length ws) (map hex_value ws)) [])
          = 8%nat)
    /\ Forall (fun l => (1 <= List.length l <= 8)%nat)
              (lines_of (List.length ws) (map hex_value ws)).
Proof.
  apply (block_format sample_device 9 2 "t" initial_state
           (snd (do_block sample_device 9 2 "t" initial_state))).
  - lia.
  - vm_compute. reflexivity.
Defined.

(** * Further properties *)

(** ** Memory *)

(** A write leaves the bytes above its last one. *)
Lemma write_nth_above (data : list byte) : forall off bs k,
  (off + List.length bs <= k)%nat ->
  nth k (write data off bs) x00 = nth k data x00.
Proof.
  induction data as [| d data IH]; intros off bs k Hk; [reflexivity |].
  destruct off as [| off]; cbn [write].
  - destruct bs as [| b bs]; [reflexivity |].
    cbn [List.length] in Hk. destruct k as [| k]; [lia |].
    cbn [nth]. apply IH. cbn [Nat.add]. lia.
  - destruct k as [| k]; [lia |]. cbn [nth]. apply IH. lia.
Qed.

(** A read stored at word [i] leaves the words above [i]. *)
Lemma word_at_write_above (data bs : list byte) (i j : Z) :
  0 <= i < j -> (List.length bs <= 4)%nat ->
  word_at (write data (Z.to_nat (4 * i)) bs) j = word_at data j.
Proof.
  intros Hj Hlen. unfold word_at, load32.
  rewrite !write_nth_above by lia. reflexivity.
Qed.

Lemma word_at_write_other (data bs : list byte) (i j : Z) :
  0 <= i -> 0 <= j -> j <> i -> (List.length bs <= 4)%nat ->
  word_at (write data (Z.to_nat (4 * i)) bs) j = word_at data j.
Proof.
  intros Hi Hj Hne Hlen. destruct (Z.lt_ge_cases j i).
  - apply word_at_write_below. lia.
  - apply word_at_write_above; [lia | exact Hlen].
Qed.

(** A write of as many bytes as the buffer has replaces it. *)
Lemma write_all (data : list byte) : forall bs,
  List.length bs = List.length data -> write data 0 bs = bs.
Proof.
  induction data as [| d data IH]; intros bs Hlen.
  - destruct bs; [reflexivity | discriminate Hlen].
  - destruct bs as [| b bs]; [discriminate Hlen |].
    cbn [write]. rewrite IH; [reflexivity |]. cbn [List.length] in Hlen. lia.
Qed.

(** The buffer after a full first read holds the first bytes found. *)
Lemma first_read_buffer (n : nat) (bs : list byte) :
  (n <= List.length bs)%nat ->
  write (repeat x00 n) 0 (firstn n bs) = firstn n bs.
Proof.
  intros Hn. apply write_all. rewrite repeat_length, length_firstn. lia.
Qed.

Lemma word_at_firstn (bs : list byte) (n : nat) (j : Z) :
  0 <= j -> (Z.to_nat (4 * j) + 4 <= n)%nat ->
  word_at (firstn n bs) j = word_at bs j.
Proof.
  intros Hj Hn. unfold word_at, load32. rewrite !nth_firstn.
  repeat match goal with
         | |- context [ (?a <? n)%nat ] =>
             destruct (Nat.ltb_spec a n); [| lia]
         end.
  reflexivity.
Qed.

Lemma read4_length (r : option (list byte)) :
  Nat.le (List.length (snd (match r with
                            | None => (-1, [])
                            | Some bs =>
                                (Z.of_nat (List.length (firstn 4 bs)), firstn 4 bs)
                            end))) 4.
Proof.
  destruct r as [bs |]; cbn [snd List.length]; [apply firstn_le_length | lia].
Qed.

(** ** What the replacement loop keeps *)

Section Keeps.

Variable e : env.

(** The retry loop of word [i] leaves every other word, and leaves
    everything when word [i] is accepted as it stands. *)
Lemma retry_loop_keeps (fuel : nat) : forall i x data st x' data' st',
  retry_loop e fuel i x data st = (Ret (x', data'), st') ->
  0 <= i ->
  (forall j, 0 <= j -> j <> i -> word_at data' j = word_at data j)
  /\ (accept (word_at data i) = Some 1 -> x' = x /\ data' = data /\ st' = st).
Proof.
  induction fuel as [| fuel IH]; intros i x data st x' data' st' Hrun Hi.
  - rewrite retry_loop_O in Hrun. discriminate Hrun.
  - rewrite retry_loop_S in Hrun.
    destruct (accept (word_at data i)) as [a |] eqn:Ha; [| discriminate Hrun].
    destruct (Z.eqb_spec a 0) as [-> | Hnz].
    + pose proof (read4_length (dev_read e (n_read st))) as Hlen.
      cbv zeta in Hrun.
      destruct (match dev_read e (n_read st) with
                | None => _ | Some bs => _ end) as [x1 got].
      cbn [fst snd] in Hrun, Hlen.
      apply IH in Hrun; [| exact Hi]. destruct Hrun as [Hother _].
      split; [| intros Hacc; discriminate Hacc].
      intros j Hj Hne. rewrite Hother by assumption.
      apply word_at_write_other; assumption.
    + injection Hrun as <- <- <-.
      split; [intros; reflexivity | intros _; repeat split].
Qed.

(** The replacement loop leaves the words that are accepted as they
    stand. *)
Lemma replace_loop_keeps (fuel : nat) : forall nwords i x data st data' st',
  replace_loop e fuel nwords i x data st = (Ret data', st') ->
  0 <= i ->
  forall j, 0 <= j -> accept (word_at data j) = Some 1 ->
            word_at data' j = word_at data j.
Proof.
  induction fuel as [| fuel IH]; intros nwords i x data st data' st' Hrun Hi j Hj Hacc.
  - rewrite replace_loop_O in Hrun. discriminate Hrun.
  - rewrite replace_loop_S in Hrun.
    destruct (negb (x =? 0) && (i <? nwords)).
    + destruct (retry_loop e fuel i x data st) as [[[x1 data1] | | |] st1] eqn:Hretry;
        try discriminate Hrun.
      destruct (retry_loop_keeps _ _ _ _ _ _ _ _ Hretry Hi) as [Hother Hsame].
      assert (E : word_at data1 j = word_at data j).
      { destruct (Z.eq_dec j i) as [-> | Hne].
        - destruct (Hsame Hacc) as (_ & -> & _). reflexivity.
        - apply Hother; assumption. }
      rewrite <- E. apply (IH _ _ _ _ _ _ _ Hrun); [lia | exact Hj |].
      rewrite E. exact Hacc.
    + injection Hrun as <- <-. reflexivity.
Qed.

(** With every word from [i] on accepted, the replacement loop returns
    the buffer as it is, without a read. *)
Lemma replace_loop_all_accepted (fuel : nat) : forall nwords i x data st,
  0 <= i -> x <> 0 ->
  (Z.to_nat (nwords - i) < fuel)%nat ->
  (forall j, i <= j < nwords -> accept (word_at data j) = Some 1) ->
  replace_loop e fuel nwords i x data st = (Ret data, st).
Proof.
  induction fuel as [| fuel IH]; intros nwords i x data st Hi Hx Hfuel Hall; [lia |].
  rewrite replace_loop_S.
  destruct (Z.eqb_spec x 0); [contradiction |]. cbn [negb andb].
  destruct (Z.ltb_spec i nwords) as [Hlt | Hge]; [| reflexivity].
  destruct fuel as [| fuel]; [lia |].
  rewrite retry_loop_S, (Hall i) by lia. cbn [Z.eqb].
  apply IH; [lia | exact Hx | lia |].
  intros j Hj. apply Hall. lia.
Qed.

(** When the reads store nothing, the retry loop of a rejected word does
    not return. *)
Lemma retry_loop_no_store (fuel : nat) : forall i x data st,
  (forall k, (n_read st <= k)%nat -> stores_nothing e k) ->
  accept (word_at data i) = Some 0 ->
  fst (retry_loop e fuel i x data st) = Timeout.
Proof.
  induction fuel as [| fuel IH]; intros i x data st Hnone Hrej; [reflexivity |].
  rewrite retry_loop_S, Hrej. cbn [Z.eqb]. cbv zeta.
  assert (Hgot : snd (match dev_read e (n_read st) with
                      | None => (-1, [])
                      | Some bs => (Z.of_nat (List.length (firstn 4 bs)), firstn 4 bs)
                      end) = []).
  { destruct (Hnone (n_read st) (Nat.le_refl _)) as [-> | ->]; reflexivity. }
  rewrite Hgot, write_nil. apply IH; [| exact Hrej].
  intros k Hk. apply Hnone. cbn [more_reads n_read] in Hk. lia.
Qed.

(** So the replacement loop does not return either, once a rejected word
    lies ahead. *)
Lemma replace_loop_stuck (fuel : nat) : forall nwords i x data st j,
  (forall k, (n_read st <= k)%nat -> stores_nothing e k) ->
  x <> 0 -> 0 <= i <= j -> j < nwords ->
  accept (word_at data j) = Some 0 ->
  fst (replace_loop e fuel nwords i x data st) = Timeout.
Proof.
  induction fuel as [| fuel IH]; intros nwords i x data st j Hnone Hx Hi Hj Hrej;
    [reflexivity |].
  rewrite replace_loop_S.
  destruct (Z.eqb_spec x 0); [contradiction |]. cbn [negb andb].
  destruct (Z.ltb_spec i nwords); [| lia].
  destruct (accept_total (word_at data i) (word_at_is_u32 _ _)) as [Ha | Ha].
  - pose proof (retry_loop_no_store fuel i x data st Hnone Ha) as Hretry.
    destruct (retry_loop e fuel i x data st) as [r1 st1].
    cbn [fst] in Hretry. subst r1. reflexivity.
  - destruct fuel as [| fuel]; [reflexivity |].
    rewrite retry_loop_S, Ha. cbn [Z.eqb].
    apply (IH _ _ _ _ _ j); [exact Hnone | exact Hx | | exact Hj | exact Hrej].
    assert (i <> j) by (intros ->; congruence). lia.
Qed.

End Keeps.

(** ** More on do_block *)

(** [do_block] after its memory and a full first read that found [bs]. *)
Lemma do_block_after_read (e : env) (fuel : nat) (nwords : Z) (name : string)
    (st : state) (bs : list byte) :
  int_ok (4 * nwords) = true ->
  calloc_succeeds e nwords st = true ->
  dev_read e (n_read st) = Some bs ->
  0 <= nwords -> 4 * nwords <= Z.of_nat (List.length bs) ->
  do_block e fuel nwords name st
  = match replace_loop e fuel nwords 0 1 (firstn (Z.to_nat (4 * nwords)) bs)
                       (more_reads (more_calloc st) 1) with
    | (Ret data', st1) => (Ret tt, more_stdout st1 (block_text nwords name data'))
    | (Exit c, st1) => (Exit c, st1)
    | (Undefined, st1) => (Undefined, st1)
    | (Timeout, st1) => (Timeout, st1)
    end.
Proof.
  intros Hok Hmem Hbs Hn Hlen. rewrite do_block_eq, Hok, Hmem, Hbs.
  cbn [negb]. cbv zeta. cbn [fst snd].
  rewrite length_firstn.
  replace (Z.of_nat (Nat.min (Z.to_nat (4 * nwords)) (List.length bs)))
    with (4 * nwords) by lia.
  rewrite Z.eqb_refl. cbn [negb].
  assert (Hsize : size_t_of_int nwords * 4 = 4 * nwords).
  { unfold size_t_of_int. unfold int_ok, INT_MAX in Hok.
    apply andb_true_iff in Hok. destruct Hok as [_ Hhi]. apply Z.leb_le in Hhi.
    rewrite Z.mod_small by lia. lia. }
  rewrite Hsize, first_read_buffer by lia. reflexivity.
Qed.

(** What a returning run knows of its first read. *)
Lemma do_block_returned_read (e : env) (fuel : nat) (nwords : Z) (name : string)
    (st st' : state) (bs : list byte) :
  do_block e fuel nwords name st = (Ret tt, st') ->
  dev_read e (n_read st) = Some bs ->
  int_ok (4 * nwords) = true /\ calloc_succeeds e nwords st = true
  /\ 0 <= nwords /\ 4 * nwords <= Z.of_nat (List.length bs).
Proof.
  intros Hrun Hbs. apply do_block_outcome in Hrun.
  destruct Hrun as (Hok & Hmem & Hfull & _). rewrite Hbs in Hfull.
  cbn [read_count] in Hfull. rewrite length_firstn in Hfull.
  split; [exact Hok |]. split; [exact Hmem |]. lia.
Qed.

(** X1. A word of the first read that passes the filter is printed as it
    was read: the replacement loop replaces rejected words only. *)
Theorem accepted_words_are_kept
    (e : env) (fuel : nat) (nwords : Z) (name : string) (st st' : state)
    (bs : list byte) :
  do_block e fuel nwords name st = (Ret tt, st') ->
  dev_read e (n_read st) = Some bs ->
  exists data',
    stdout st' = stdout st ++ block_text nwords name data'
    /\ forall j, 0 <= j < nwords ->
         accept (word_at bs j) = Some 1 -> word_at data' j = word_at bs j.
Proof.
  intros Hrun Hbs.
  destruct (do_block_returned_read _ _ _ _ _ _ _ Hrun Hbs) as (Hok & Hmem & Hn & Hlen).
  rewrite (do_block_after_read e fuel nwords name st bs) in Hrun by assumption.
  destruct (replace_loop e fuel nwords 0 1 _ _) as [[data' | c | |] st1] eqn:Hloop;
    try discriminate Hrun.
  injection Hrun as <-. exists data'.
  pose proof (replace_loop_returns e fuel _ _ _ _ _ _ _ Hloop) as [[k ->] _];
    [lia | lia | intros j Hj; lia |].
  split; [reflexivity |].
  intros j Hj Hacc.
  assert (E : word_at (firstn (Z.to_nat (4 * nwords)) bs) j = word_at bs j)
    by (apply word_at_firstn; lia).
  rewrite <- E.
  apply (replace_loop_keeps e fuel _ _ _ _ _ _ _ Hloop); [lia | lia |].
  rewrite E. exact Hacc.
Qed.

Lemma accepted_words_are_kept_witness :
  accept (word_at [x5a; x5a; x5a; x5a; x00; x00; x00; x00] 0) = Some 1
  /\ accept (word_at [x5a; x5a; x5a; x5a; x00; x00; x00; x00] 1) = Some 0
  /\ exists data',
       stdout (snd (do_block mixed_device 9 2 "t" initial_state))
       = "" ++ block_text 2 "t" data'
       /\ word_at data' 0 = 0x5a5a5a5a.
Proof.
  split; [vm_compute; reflexivity |]. split; [vm_compute; reflexivity |].
  destruct (accepted_words_are_kept mixed_device 9 2 "t" initial_state
              (snd (do_block mixed_device 9 2 "t" initial_state))
              [x5a; x5a; x5a; x5a; x00; x00; x00; x00])
    as (data' & Hout & Hkept).
  - vm_compute. reflexivity.
  - reflexivity.
  - exists data'. split; [exact Hout |].
    rewrite (Hkept 0); [reflexivity | lia | vm_compute; reflexivity].
Defined.

(** X2. When every word of the first read passes the filter, [do_block]
    returns after this one read, for any fuel above [nwords], and what it
    prints are the words of the first read. *)
Theorem good_first_read_is_printed
    (e : env) (fuel : nat) (nwords : Z) (name : string) (st : state)
    (bs : list byte) :
  int_ok (4 * nwords) = true ->
  calloc_succeeds e nwords st = true ->
  dev_read e (n_read st) = Some bs ->
  0 <= nwords -> 4 * nwords <= Z.of_nat (List.length bs) ->
  (forall j, 0 <= j < nwords -> accept (word_at bs j) = Some 1) ->
  (Z.to_nat nwords < fuel)%nat ->
  do_block e fuel nwords name st
  = (Ret tt, more_stdout (more_reads (more_calloc st) 1)
                         (block_text nwords name
                                     (firstn (Z.to_nat (4 * nwords)) bs))).
Proof.
  intros Hok Hmem Hbs Hn Hlen Hall Hfuel.
  rewrite (do_block_after_read e fuel nwords name st bs) by assumption.
  rewrite replace_loop_all_accepted; [reflexivity | lia | lia | |].
  - rewrite Z.sub_0_r. exact Hfuel.
  - intros j Hj. rewrite word_at_firstn by lia. apply Hall. lia.
Qed.

Lemma good_first_read_is_printed_witness :
  do_block steady_device 3 2 "t" initial_state
  = (Ret tt, more_stdout (more_reads (more_calloc initial_state) 1)
                         (block_text 2 "t" (firstn (Z.to_nat (4 * 2))
                                                   (repeat x5a 768)))).
Proof.
  apply (good_first_read_is_printed steady_device 3 2 "t" initial_state
           (repeat x5a 768)).
  - reflexivity.
  - reflexivity.
  - reflexivity.
  - lia.
  - rewrite repeat_length. lia.
  - intros j Hj. assert (Hc : j = 0 \/ j = 1) by lia.
    destruct Hc as [-> | ->]; vm_compute; reflexivity.
  - cbn. lia.
Defined.

(** X3. A failing or empty read does not end the replacement loop: when
    the first read is full and has a rejected word, and every later read
    stores nothing (an error, or no byte), [do_block] neither returns nor
    exits, whatever the fuel. The test of [x] in the [for] loop is never
    reached with [x] equal to 0. *)
Theorem failing_reads_never_end
    (e : env) (nwords : Z) (name : string) (st : state) (bs : list byte) (j : Z) :
  int_ok (4 * nwords) = true ->
  calloc_succeeds e nwords st = true ->
  dev_read e (n_read st) = Some bs ->
  4 * nwords <= Z.of_nat (List.length bs) ->
  0 <= j < nwords ->
  accept (word_at bs j) = Some 0 ->
  (forall k, (n_read st < k)%nat -> stores_nothing e k) ->
  forall fuel, fst (do_block e fuel nwords name st) = Timeout.
Proof.
  intros Hok Hmem Hbs Hlen Hj Hrej Hnone fuel.
  rewrite (do_block_after_read e fuel nwords name st bs) by (assumption || lia).
  pose proof (replace_loop_stuck e fuel nwords 0 1
                (firstn (Z.to_nat (4 * nwords)) bs)
                (more_reads (more_calloc st) 1) j) as Hloop.
  destruct (replace_loop e fuel nwords 0 1 _ _) as [r1 st1].
  cbn [fst] in Hloop. rewrite Hloop; [reflexivity | | lia | lia | lia |].
  - intros k Hk. apply Hnone. cbn [more_reads more_calloc n_read] in Hk. lia.
  - rewrite word_at_firstn by lia. exact Hrej.
Qed.

Lemma failing_reads_never_end_witness :
  fst (do_block drained_device 50 2 "t" initial_state) = Timeout.
Proof.
  apply (failing_reads_never_end drained_device 2 "t" initial_state
           (repeat x00 8) 0).
  - reflexivity.
  - reflexivity.
  - reflexivity.
  - cbn. lia.
  - lia.
  - reflexivity.
  - intros k Hk. right. cbn [n_read initial_state] in Hk.
    destruct k as [| k]; [lia | reflexivity].
Defined.

Lemma append_inj_l (a x y : string) : a ++ x = a ++ y -> x = y.
Proof.
  induction a as [| c a IH]; cbn [append]; intros H; [exact H |].
  injection H as H. apply IH. exact H.
Qed.

(** X4. For no word at all, [do_block] that finds memory and whose read
    does not fail writes the opening line and an empty line and no
    closing brace: not the array literal of no value. *)
Theorem empty_block_is_not_closed
    (e : env) (fuel : nat) (name : string) (st : state) (bs : list byte) :
  calloc_succeeds e 0 st = true ->
  dev_read e (n_read st) = Some bs ->
  (1 <= fuel)%nat ->
  do_block e fuel 0 name st
  = (Ret tt, more_stdout (more_reads (more_calloc st) 1)
                         ("static u32 " ++ name ++ "[] = {" ++ nl ++ nl))
  /\ "static u32 " ++ name ++ "[] = {" ++ nl ++ nl <> array_literal name [].
Proof.
  intros Hmem Hbs Hfuel. split.
  - rewrite (do_block_after_read e fuel 0 name st bs);
      [| reflexivity | exact Hmem | exact Hbs | lia | lia].
    rewrite replace_loop_all_accepted; [reflexivity | lia | lia | | ].
    + cbn. lia.
    + intros j Hj. lia.
  - unfold array_literal. cbn [List.length lines_of map String.concat].
    intros H. apply append_inj_l, append_inj_l in H. discriminate H.
Qed.

Lemma empty_block_is_not_closed_witness :
  do_block steady_device 1 0 "t" initial_state
  = (Ret tt, more_stdout (more_reads (more_calloc initial_state) 1)
                         ("static u32 " ++ "t" ++ "[] = {" ++ nl ++ nl))
  /\ "static u32 " ++ "t" ++ "[] = {" ++ nl ++ nl <> array_literal "t" [].
Proof.
  apply (empty_block_is_not_closed steady_device 1 "t" initial_state
           (repeat x5a 768)).
  - reflexivity.
  - reflexivity.
  - apply Nat.le_refl.
Defined.

(** X5. A negative count is fatal whatever the environment: converted to
    [size_t] it asks [calloc] for more than a [size_t] can count, so
    [do_block] ends in [exit(1)] with the [calloc] diagnostic, before any
    read and with nothing written to the standard output. *)
Theorem negative_count_is_fatal
    (e : env) (fuel : nat) (nwords : Z) (name : string) (st : state) :
  nwords < 0 -> int_ok (4 * nwords) = true ->
  do_block e fuel nwords name st
  = (Exit 1, more_stderr (more_calloc st) msg_calloc).
Proof.
  intros Hneg Hok. rewrite do_block_eq, Hok. cbn [negb].
  replace (calloc_succeeds e nwords st) with false; [reflexivity |].
  symmetry. unfold calloc_succeeds. apply andb_false_iff. left.
  apply Z.ltb_ge. unfold size_t_of_int.
  unfold int_ok, INT_MIN in Hok. apply andb_true_iff in Hok.
  destruct Hok as [Hlo _]. apply Z.leb_le in Hlo.
  change (2 ^ 64) with 18446744073709551616. divlia.
Qed.

Lemma negative_count_is_fatal_witness :
  do_block steady_device 5 (-1) "t" initial_state
  = (Exit 1, more_stderr (more_calloc initial_state) msg_calloc).
Proof.
  apply (negative_count_is_fatal steady_device 5 (-1) "t" initial_state).
  - lia.
  - reflexivity.
Defined.

(** ** More on main *)

Lemma words_of_accepted (data : list byte) (n : Z) :
  (forall j, 0 <= j < n -> accept (word_at data j) = Some 1) ->
  Forall (fun w => accept w = Some 1) (words_of data n).
Proof.
  intros Hall. apply Forall_forall. intros w Hw.
  unfold words_of, range in Hw. rewrite map_map in Hw.
  apply in_map_iff in Hw. destruct Hw as (k & <- & Hk).
  apply in_seq in Hk. apply Hall. lia.
Qed.

(** A block of [main] that has returned: its words and what it added. *)
Lemma do_block_returned (e : env) (fuel : nat) (nwords : Z) (name : string)
    (st st' : state) :
  1 <= nwords ->
  do_block e fuel nwords name st = (Ret tt, st') ->
  exists ws,
    List.length ws = Z.to_nat nwords
    /\ Forall (fun w => accept w = Some 1) ws
    /\ stdout st' = stdout st ++ array_literal name ws
    /\ stderr st' = stderr st
    /\ n_calloc st' = S (n_calloc st).
Proof.
  intros Hn Hrun. apply do_block_outcome in Hrun.
  destruct Hrun as (_ & _ & _ & k & data' & _ & Hall & ->).
  exists (words_of data' nwords).
  split; [apply words_of_length |].
  split; [apply words_of_accepted; exact Hall |].
  split; [| split; reflexivity].
  cbn [more_stdout more_reads more_calloc stdout].
  rewrite block_text_literal by exact Hn. reflexivity.
Qed.

(** A block of [main] that has exited: the standard output is as it was. *)
Lemma do_block_exited (e : env) (fuel : nat) (nwords : Z) (name : string)
    (st st' : state) (c : Z) :
  do_block e fuel nwords name st = (Exit c, st') ->
  c = 1 /\ stdout st' = stdout st
  /\ (stderr st' = stderr st ++ msg_calloc \/ stderr st' = stderr st ++ msg_read).
Proof.
  intros Hrun. apply do_block_outcome in Hrun.
  destruct Hrun as (-> & _ & [[_ ->] | (_ & _ & ->)]).
  - split; [reflexivity |]. split; [reflexivity | left; reflexivity].
  - split; [reflexivity |]. split; [reflexivity | right; reflexivity].
Qed.

(** X6. The whole output of a run of [main] that ends in [exit(0)]: the
    preamble, the array [pools] of 192 accepted words and, with
    [CONFIG_RANDOM_GCM], the definition of [ARRAY_WORDS], the array
    [constants] of 40 accepted words and the declaration of [counter];
    nothing on the error stream; one call of [calloc] for each array. *)
Theorem main_output_on_success
    (e : env) (gcm : bool) (fuel : nat) (st' : state) :
  main e gcm fuel initial_state = (Exit 0, st') ->
  exists ws1 ws2,
    List.length ws1 = 192%nat
    /\ Forall (fun w => accept w = Some 1) ws1
    /\ List.length ws2 = (if gcm then 40 else 0)%nat
    /\ Forall (fun w => accept w = Some 1) ws2
    /\ stdout st'
       = preamble_text ++ array_literal "pools" ws1
         ++ (if gcm
             then gcm_text ++ array_literal "constants" ws2 ++ counter_text
             else "")
    /\ stderr st' = ""
    /\ n_calloc st' = (if gcm then 2 else 1)%nat.
Proof.
  intros Hrun. destruct (dev_open e) eqn:Hopen.
  2:{ rewrite main_open_fails in Hrun by exact Hopen. discriminate Hrun. }
  rewrite main_opened, main_blocks_eq in Hrun by exact Hopen.
  destruct (do_block e fuel TOTAL_POOL_WORDS "pools" _) as [[[] | c | |] st1] eqn:H1;
    try discriminate Hrun.
  2:{ apply do_block_exited in H1. destruct H1 as [-> _].
      injection Hrun as Hc _. discriminate Hc. }
  apply do_block_returned in H1; [| change TOTAL_POOL_WORDS with 192; lia].
  destruct H1 as (ws1 & Hlen1 & Hacc1 & Hout1 & Herr1 & Hmem1).
  cbn [stdout stderr n_calloc] in Hout1, Herr1, Hmem1.
  destruct gcm.
  - destruct (do_block e fuel (ARRAY_WORDS + 8) "constants" _)
      as [[[] | c | |] st2] eqn:H2; try discriminate Hrun.
    2:{ apply do_block_exited in H2. destruct H2 as [-> _].
        injection Hrun as Hc _. discriminate Hc. }
    apply do_block_returned in H2; [| change (ARRAY_WORDS + 8) with 40; lia].
    destruct H2 as (ws2 & Hlen2 & Hacc2 & Hout2 & Herr2 & Hmem2).
    cbn [more_stdout stdout stderr n_calloc] in Hout2, Herr2, Hmem2.
    injection Hrun as <-. exists ws1, ws2.
    split; [exact Hlen1 |]. split; [exact Hacc1 |].
    split; [exact Hlen2 |]. split; [exact Hacc2 |].
    cbn [more_stdout stdout stderr n_calloc].
    split; [rewrite Hout2, Hout1, !append_assoc; reflexivity |].
    split; [rewrite Herr2; exact Herr1 | rewrite Hmem2, Hmem1; reflexivity].
  - injection Hrun as <-. exists ws1, [].
    split; [exact Hlen1 |]. split; [exact Hacc1 |].
    split; [reflexivity |]. split; [constructor |].
    split; [rewrite Hout1, append_nil_r; reflexivity |].
    split; [exact Herr1 | exact Hmem1].
Qed.

Lemma main_output_on_success_witness :
  exists ws1 ws2,
    List.length ws1 = 192%nat
    /\ Forall (fun w => accept w = Some 1) ws1
    /\ List.length ws2 = 40%nat
    /\ Forall (fun w => accept w = Some 1) ws2
    /\ stdout (snd (main steady_device true 200 initial_state))
       = preamble_text ++ array_literal "pools" ws1
         ++ (gcm_text ++ array_literal "constants" ws2 ++ counter_text)
    /\ stderr (snd (main steady_device true 200 initial_state)) = ""
    /\ n_calloc (snd (main steady_device true 200 initial_state)) = 2%nat.
Proof.
  apply (main_output_on_success steady_device true 200
           (snd (main steady_device true 200 initial_state))).
  vm_compute. reflexivity.
Defined.

(** X7. A run of [main] that ends in [exit(1)] leaves no array half
    written: the standard output is empty (the device did not open), or
    the preamble alone (the first block failed), or the preamble, the
    whole array [pools] and the definition of [ARRAY_WORDS] (the second
    block failed). *)
Theorem no_partial_array_at_exit
    (e : env) (gcm : bool) (fuel : nat) (st' : state) :
  main e gcm fuel initial_state = (Exit 1, st') ->
  (stdout st' = "" /\ stderr st' = msg_open)
  \/ (stdout st' = preamble_text
      /\ (stderr st' = msg_calloc \/ stderr st' = msg_read))
  \/ (gcm = true
      /\ (stderr st' = msg_calloc \/ stderr st' = msg_read)
      /\ exists ws1,
           List.length ws1 = 192%nat
           /\ stdout st' = preamble_text ++ array_literal "pools" ws1 ++ gcm_text).
Proof.
  intros Hrun. destruct (dev_open e) eqn:Hopen.
  2:{ rewrite main_open_fails in Hrun by exact Hopen.
      injection Hrun as <-. left. split; reflexivity. }
  right. rewrite main_opened, main_blocks_eq in Hrun by exact Hopen.
  destruct (do_block e fuel TOTAL_POOL_WORDS "pools" _) as [[[] | c | |] st1] eqn:H1;
    try discriminate Hrun.
  - apply do_block_returned in H1; [| change TOTAL_POOL_WORDS with 192; lia].
    destruct H1 as (ws1 & Hlen1 & _ & Hout1 & Herr1 & _).
    cbn [stdout stderr] in Hout1, Herr1.
    destruct gcm; [| discriminate Hrun].
    destruct (do_block e fuel (ARRAY_WORDS + 8) "constants" _)
      as [[[] | c | |] st2] eqn:H2; try discriminate Hrun.
    apply do_block_exited in H2. destruct H2 as (_ & Hout2 & Herr2).
    cbn [more_stdout stdout stderr] in Hout2, Herr2.
    injection Hrun as _ <-. right. split; [reflexivity |].
    rewrite Herr1 in Herr2. split; [exact Herr2 |].
    exists ws1. split; [exact Hlen1 |].
    rewrite Hout2, Hout1, append_assoc. reflexivity.
  - apply do_block_exited in H1. destruct H1 as (_ & Hout1 & Herr1).
    cbn [stdout stderr] in Hout1, Herr1.
    injection Hrun as _ <-. left. split; [exact Hout1 | exact Herr1].
Qed.

Lemma no_partial_array_at_exit_witness :
  (stdout (snd (main sample_device true 9 initial_state)) = ""
   /\ stderr (snd (main sample_device true 9 initial_state)) = msg_open)
  \/ (stdout (snd (main sample_device true 9 initial_state)) = preamble_text
      /\ (stderr (snd (main sample_device true 9 initial_state)) = msg_calloc
          \/ stderr (snd (main sample_device true 9 initial_state)) = msg_read))
  \/ (true = true
      /\ (stderr (snd (main sample_device true 9 initial_state)) = msg_calloc
          \/ stderr (snd (main sample_device true 9 initial_state)) = msg_read)
      /\ exists ws1,
           List.length ws1 = 192%nat
           /\ stdout (snd (main sample_device true 9 initial_state))
              = preamble_text ++ array_literal "pools" ws1 ++ gcm_text).
Proof.
  apply (no_partial_array_at_exit sample_device true 9
           (snd (main sample_device true 9 initial_state))).
  vm_compute. reflexivity.
Defined.

(** ** The printed value and the word *)

Lemma nibble_div (w k : Z) :
  0 <= k -> nibble w k = (w / 2 ^ (4 * k)) mod 16.
Proof.
  intros Hk. unfold nibble. rewrite Z.shiftr_div_pow2 by lia.
  change 15 with (Z.ones 4). rewrite Z.land_ones by lia. reflexivity.
Qed.

Lemma hex_digit_value_digit (d : Z) :
  0 <= d < 16 -> hex_digit_value (hex_digit d) = d.
Proof.
  intros Hd.
  assert (Hc : d = 0 \/ d = 1 \/ d = 2 \/ d = 3 \/ d = 4 \/ d = 5 \/ d = 6
               \/ d = 7 \/ d = 8 \/ d = 9 \/ d = 10 \/ d = 11 \/ d = 12
               \/ d = 13 \/ d = 14 \/ d = 15) by lia.
  repeat (destruct Hc as [-> | Hc]; [reflexivity |]). subst d. reflexivity.
Qed.

(** A [u32] is the sum of its eight hexadecimal digits. *)
Lemma u32_nibbles (w : Z) :
  is_u32 w ->
  w = 16 * (16 * (16 * (16 * (16 * (16 * (16 * nibble w 7 + nibble w 6)
        + nibble w 5) + nibble w 4) + nibble w 3) + nibble w 2) + nibble w 1)
      + nibble w 0.
Proof.
  unfold is_u32. intros Hw. rewrite !nibble_div by lia.
  change (2 ^ (4 * 0)) with 1. change (2 ^ (4 * 1)) with 16.
  change (2 ^ (4 * 2)) with (16 * 16). change (2 ^ (4 * 3)) with (16 * 16 * 16).
  change (2 ^ (4 * 4)) with (16 * 16 * 16 * 16).
  change (2 ^ (4 * 5)) with (16 * 16 * 16 * 16 * 16).
  change (2 ^ (4 * 6)) with (16 * 16 * 16 * 16 * 16 * 16).
  change (2 ^ (4 * 7)) with (16 * 16 * 16 * 16 * 16 * 16 * 16).
  rewrite <- !Z.div_div by lia. rewrite Z.div_1_r.
  set (q1 := w / 16). set (q2 := q1 / 16). set (q3 := q2 / 16).
  set (q4 := q3 / 16). set (q5 := q4 / 16). set (q6 := q5 / 16).
  set (q7 := q6 / 16).
  pose proof (Z.div_mod w 16 ltac:(lia)). pose proof (Z.div_mod q1 16 ltac:(lia)).
  pose proof (Z.div_mod q2 16 ltac:(lia)). pose proof (Z.div_mod q3 16 ltac:(lia)).
  pose proof (Z.div_mod q4 16 ltac:(lia)). pose proof (Z.div_mod q5 16 ltac:(lia)).
  pose proof (Z.div_mod q6 16 ltac:(lia)).
  assert (Hq7 : 0 <= q7 < 16).
  { subst q7 q6 q5 q4 q3 q2 q1. rewrite !Z.div_div by lia.
    change (2 ^ 32) with (16 * 16 * 16 * 16 * 16 * 16 * 16 * 16) in Hw.
    split; [apply Z.div_pos; lia |].
    apply Z.div_lt_upper_bound; lia. }
  rewrite (Z.mod_small q7) by lia.
  fold q1 in H. fold q2 in H0. fold q3 in H1. fold q4 in H2. fold q5 in H3.
  fold q6 in H4. fold q7 in H5. lia.
Qed.

Lemma nibble_range (w k : Z) : 0 <= k -> 0 <= nibble w k < 16.
Proof.
  intros Hk. rewrite nibble_div by exact Hk. apply Z.mod_pos_bound. lia.
Qed.

(** X8. The eight digits printed for a word, read as a hexadecimal number,
    are the word: [%08x] loses nothing of a [u32], and two different
    words are printed differently. *)
Theorem printed_value_is_the_word (w : Z) :
  is_u32 w ->
  parse_hex (fmt_08x w) = w
  /\ forall w', is_u32 w' -> fmt_08x w' = fmt_08x w -> w' = w.
Proof.
  assert (Hparse : forall v, is_u32 v -> parse_hex (fmt_08x v) = v).
  { intros v Hv. unfold parse_hex, fmt_08x.
    cbn [map string_of_list_ascii parse_hex_from].
    rewrite !hex_digit_value_digit by (apply nibble_range; lia).
    rewrite (u32_nibbles v Hv) at 9. lia. }
  intros Hw. split; [apply Hparse; exact Hw |].
  intros w' Hw' E. rewrite <- (Hparse w' Hw'), E. apply Hparse. exact Hw.
Qed.

Lemma printed_value_is_the_word_witness :
  parse_hex (fmt_08x 0x78563412) = 0x78563412
  /\ forall w', is_u32 w' -> fmt_08x w' = fmt_08x 0x78563412 -> w' = 0x78563412.
Proof.
  apply (printed_value_is_the_word 0x78563412). unfold is_u32. lia.
Defined.

(** ** The filter and the order of the bytes *)

Lemma popc_split (n m : nat) : forall x,
  popc (n + m) x = popc n x + popc m (Z.shiftr x (Z.of_nat n)).
Proof.
  induction n as [| n IH]; intros x.
  - cbn [Nat.add popc]. rewrite Z.shiftr_0_r. reflexivity.
  - cbn [Nat.add popc]. rewrite IH.
    replace (Z.shiftr (Z.div2 x) (Z.of_nat n)) with (Z.shiftr x (Z.of_nat (S n))).
    + lia.
    + rewrite Z.div2_spec, Z.shiftr_shiftr by lia. f_equal. lia.
Qed.

Lemma popc_low (n : nat) : forall x y,
  popc n (x + 2 ^ Z.of_nat n * y) = popc n x.
Proof.
  induction n as [| n IH]; intros x y; [reflexivity |].
  cbn [popc]. rewrite Nat2Z.inj_succ, Z.pow_succ_r by lia.
  replace (Z.odd (x + 2 * 2 ^ Z.of_nat n * y)) with (Z.odd x).
  2:{ replace (x + 2 * 2 ^ Z.of_nat n * y) with (x + 2 * (2 ^ Z.of_nat n * y)) by lia.
      rewrite Z.odd_add_mul_2. reflexivity. }
  replace (Z.div2 (x + 2 * 2 ^ Z.of_nat n * y))
    with (Z.div2 x + 2 ^ Z.of_nat n * y).
  - rewrite IH. reflexivity.
  - rewrite !Z.div2_div.
    replace (x + 2 * 2 ^ Z.of_nat n * y) with (x + (2 ^ Z.of_nat n * y) * 2) by lia.
    rewrite Z.div_add by lia. reflexivity.
Qed.

(** The population count of a word is the sum of those of its bytes. *)
Lemma popc_bytes (a b c d : Z) :
  0 <= a < 256 -> 0 <= b < 256 -> 0 <= c < 256 -> 0 <= d < 256 ->
  popc 32 (a + 2 ^ 8 * b + 2 ^ 16 * c + 2 ^ 24 * d)
  = popc 8 a + popc 8 b + popc 8 c + popc 8 d.
Proof.
  intros Ha Hb Hc Hd.
  assert (Hstep : forall (m : nat) (lo hi : Z), 0 <= lo < 256 ->
            popc (8 + m) (lo + 2 ^ 8 * hi) = popc 8 lo + popc m hi).
  { intros m lo hi Hlo. rewrite popc_split.
    pose proof (popc_low 8 lo hi) as Hlow.
    change (Z.of_nat 8) with 8 in *. rewrite Hlow.
    rewrite Z.shiftr_div_pow2 by lia. do 2 f_equal.
    change (2 ^ 8) with 256. divlia. }
  replace (a + 2 ^ 8 * b + 2 ^ 16 * c + 2 ^ 24 * d)
    with (a + 2 ^ 8 * (b + 2 ^ 8 * (c + 2 ^ 8 * (d + 2 ^ 8 * 0)))) by lia.
  rewrite (Hstep 24%nat), (Hstep 16%nat), (Hstep 8%nat), (Hstep 0%nat) by assumption.
  cbn [popc]. lia.
Qed.

Lemma byte_of_bytes (a b c d : Z) :
  0 <= a < 256 -> 0 <= b < 256 -> 0 <= c < 256 -> 0 <= d < 256 ->
  let u := a + 2 ^ 8 * b + 2 ^ 16 * c + 2 ^ 24 * d in
  byte_of_u32 u 0 = a /\ byte_of_u32 u 1 = b
  /\ byte_of_u32 u 2 = c /\ byte_of_u32 u 3 = d.
Proof.
  intros Ha Hb Hc Hd u. subst u. unfold byte_of_u32.
  change 255 with (Z.ones 8). rewrite !Z.land_ones, !Z.shiftr_div_pow2 by lia.
  change (2 ^ 8) with 256. change (2 ^ 16) with 65536.
  change (2 ^ 24) with 16777216.
  change (2 ^ (8 * 0)) with 1. change (2 ^ (8 * 1)) with 256.
  change (2 ^ (8 * 2)) with 65536. change (2 ^ (8 * 3)) with 16777216.
  repeat split; divlia.
Qed.

(** X9. [accept] gives the same verdict on a word and on the word with
    its four bytes in the reverse order: the filter does not depend on
    the byte order in which the host loads the word from the buffer. *)
Theorem accept_ignores_byte_order (b0 b1 b2 b3 : byte) :
  accept (load32 [b3; b2; b1; b0] 0) = accept (load32 [b0; b1; b2; b3] 0).
Proof.
  rewrite !accept_eq by apply load32_is_u32.
  unfold load32. cbn [nth Nat.add].
  pose proof (Z_of_byte_range b0). pose proof (Z_of_byte_range b1).
  pose proof (Z_of_byte_range b2). pose proof (Z_of_byte_range b3).
  rewrite !popcount_popc, !popc_bytes by lia.
  cbn [existsb].
  destruct (byte_of_bytes (Z_of_byte b3) (Z_of_byte b2) (Z_of_byte b1) (Z_of_byte b0))
    as (-> & -> & -> & ->); try lia.
  destruct (byte_of_bytes (Z_of_byte b0) (Z_of_byte b1) (Z_of_byte b2) (Z_of_byte b3))
    as (-> & -> & -> & ->); try lia.
  replace (popc 8 (Z_of_byte b3) + popc 8 (Z_of_byte b2) + popc 8 (Z_of_byte b1)
           + popc 8 (Z_of_byte b0))
    with (popc 8 (Z_of_byte b0) + popc 8 (Z_of_byte b1) + popc 8 (Z_of_byte b2)
          + popc 8 (Z_of_byte b3)) by lia.
  destruct (rejected_byte (Z_of_byte b0)), (rejected_byte (Z_of_byte b1)),
    (rejected_byte (Z_of_byte b2)), (rejected_byte (Z_of_byte b3)); reflexivity.
Qed.

(** ** The weight test and the complement *)

Lemma popc_complement (n : nat) : forall x,
  0 <= x < 2 ^ Z.of_nat n ->
  popc n (2 ^ Z.of_nat n - 1 - x) = Z.of_nat n - popc n x.
Proof.
  induction n as [| n IH]; intros x Hx; [reflexivity |].
  cbn [popc]. rewrite Nat2Z.inj_succ, Z.pow_succ_r in * by lia.
  pose proof (Z.div2_odd x) as Ex. rewrite Z.div2_div in Ex.
  replace (Z.odd (2 * 2 ^ Z.of_nat n - 1 - x)) with (negb (Z.odd x)).
  2:{ replace (2 * 2 ^ Z.of_nat n - 1 - x)
        with (1 + x + 2 * (2 ^ Z.of_nat n - 1 - x)) by lia.
      rewrite Z.odd_add_mul_2. rewrite Z.odd_add. reflexivity. }
  replace (Z.div2 (2 * 2 ^ Z.of_nat n - 1 - x))
    with (2 ^ Z.of_nat n - 1 - Z.div2 x).
  - rewrite IH by (rewrite Z.div2_div; divlia).
    destruct (Z.odd x); cbn [negb Z.b2z]; lia.
  - rewrite !Z.div2_div. destruct (Z.odd x); cbn [Z.b2z] in Ex; divlia.
Qed.

(** X10. The complement of a word has as many bits clear as the word has
    set, [hamming (~u) = 32 - hamming u], so the weight test of [accept],
    whose window [MIN, 32 - MIN] is symmetric, gives the same verdict on
    a word and on its complement. *)
Theorem weight_test_of_complement (u : Z) :
  is_u32 u ->
  exists h,
    hamming u = Some h
    /\ hamming (wrap32 (Z.lnot u)) = Some (32 - h)
    /\ (32 - h <? MIN) || (32 - h >? MAX) = (h <? MIN) || (h >? MAX).
Proof.
  intros Hu. exists (popcount u).
  split; [apply hamming_returns; exact Hu |].
  assert (E : wrap32 (Z.lnot u) = 2 ^ Z.of_nat 32 - 1 - u).
  { unfold wrap32, Z.lnot, is_u32 in *. change (2 ^ Z.of_nat 32) with (2 ^ 32).
    change (2 ^ 32) with 4294967296 in *. divlia. }
  split.
  - rewrite hamming_returns.
    + rewrite !popcount_popc, E, popc_complement; [reflexivity |].
      unfold is_u32 in Hu. exact Hu.
    + rewrite E. unfold is_u32 in *. change (2 ^ Z.of_nat 32) with (2 ^ 32). lia.
  - change MIN with 8. change MAX with 24.
    destruct (Z.ltb_spec (32 - popcount u) 8), (Z.gtb_spec (32 - popcount u) 24),
      (Z.ltb_spec (popcount u) 8), (Z.gtb_spec (popcount u) 24);
      try reflexivity; lia.
Qed.

Lemma weight_test_of_complement_witness :
  exists h,
    hamming 0x0000FFFF = Some h
    /\ hamming (wrap32 (Z.lnot 0x0000FFFF)) = Some (32 - h)
    /\ (32 - h <? MIN) || (32 - h >? MAX) = (h <? MIN) || (h >? MAX).
Proof.
  apply (weight_test_of_complement 0x0000FFFF). unfold is_u32. lia.
Defined.
